(** * im2latex-dataset: formula extraction and rendering pipeline

    A shallow embedding of [src/latex2formulas.py] and
    [src/formula2image.py], and the properties of the specification that
    are settled against it.

    Conventions of the embedding.
    - The programs are read as Python 3, as their first line asks. A [str]
      is a list of Unicode code points ([pystr]); the literals of the source
      are written with [py "..."].
    - Code that can raise returns an [outcome]; code that touches the
      working directory or starts external programs runs in the monad [M]
      over a [World] (directory contents and the log of started programs).
    - The external programs (pdflatex, pdftoppm) and the failure modes of
      the operating system are a [Toolchain] parameter. *)

From Stdlib Require Import ZArith NArith Lia Ascii String List Permutation.
From Stdlib Require Import DecimalPos DecimalN Sorted.
From stdpp Require Import base list gmap sets.
Import ListNotations.

Local Open Scope N_scope.

(** ** Python strings *)

Definition pystr := list N.

Definition ord (c : ascii) : N := N_of_ascii c.

Fixpoint py (s : string) : pystr :=
  match s with
  | EmptyString => []
  | String c s' => ord c :: py s'
  end.

Definition pystr_eqb (a b : pystr) : bool := bool_decide (a = b).

(** [s.startswith(p)] *)
Fixpoint startswith (p s : pystr) : bool :=
  match p, s with
  | [], _ => true
  | _ :: _, [] => false
  | a :: p', b :: s' => N.eqb a b && startswith p' s'
  end.

(** [sep.join(parts)] *)
Fixpoint join (sep : pystr) (parts : list pystr) : pystr :=
  match parts with
  | [] => []
  | [x] => x
  | x :: rest => x ++ sep ++ join sep rest
  end.

(** [s.split(c)] for a separator of one character: the fields between the
    occurrences of [c]; never the empty list. *)
Fixpoint split_on (c : N) (s : pystr) : list pystr :=
  match s with
  | [] => [[]]
  | x :: s' =>
      if N.eqb x c then [] :: split_on c s'
      else match split_on c s' with
           | [] => [[x]]
           | f :: fs => (x :: f) :: fs
           end
  end.

(** [s.replace(c, "")] for one character [c]. *)
Definition remove_char (c : N) (s : pystr) : pystr :=
  List.filter (fun x => negb (N.eqb x c)) s.

(** [s.strip(chars)], by a predicate on characters: drops the longest
    prefix and the longest suffix made of such characters. *)
Fixpoint lstrip_by (p : N -> bool) (s : pystr) : pystr :=
  match s with
  | [] => []
  | x :: s' => if p x then lstrip_by p s' else s
  end.

Definition rstrip_by (p : N -> bool) (s : pystr) : pystr :=
  rev (lstrip_by p (rev s)).

Definition strip_by (p : N -> bool) (s : pystr) : pystr :=
  rstrip_by p (lstrip_by p s).

(** [str.isspace] on one code point: the white space of Python 3. *)
Definition isspace (c : N) : bool :=
  (9 <=? c) && (c <=? 13) || (28 <=? c) && (c <=? 32)
  || (c =? 133) || (c =? 160) || (c =? 5760)
  || (8192 <=? c) && (c <=? 8202)
  || (c =? 8232) || (c =? 8233) || (c =? 8239) || (c =? 8287)
  || (c =? 12288).

(** [s.strip()] *)
Definition strip (s : pystr) : pystr := strip_by isspace s.

(** [s.strip("%")] *)
Definition strip_percent (s : pystr) : pystr := strip_by (N.eqb 37) s.

(** ** Exceptions *)

Inductive exn : Type :=
| UnicodeEncodeError
| OSError
| ReError
| ValueError
| IndexError.

Inductive outcome (A : Type) : Type :=
| Return (a : A)
| Raise (e : exn).
Arguments Return {A} a.
Arguments Raise {A} e.

Definition obind {A B} (x : outcome A) (k : A -> outcome B) : outcome B :=
  match x with
  | Return a => k a
  | Raise e => Raise e
  end.

(** ** UTF-8 and SHA-1: [hashlib.sha1(formula.encode('utf-8')).hexdigest()] *)

(** The bytes of one code point; a surrogate (U+D800..U+DFFF) and a value
    above U+10FFFF have no encoding ([UnicodeEncodeError]). *)
Definition utf8_char (c : N) : option (list N) :=
  if c <? 128 then Some [c]
  else if c <? 2048 then
    Some [N.lor 192 (N.shiftr c 6); N.lor 128 (N.land c 63)]
  else if (55296 <=? c) && (c <=? 57343) then None
  else if c <? 65536 then
    Some [N.lor 224 (N.shiftr c 12);
          N.lor 128 (N.land (N.shiftr c 6) 63);
          N.lor 128 (N.land c 63)]
  else if c <? 1114112 then
    Some [N.lor 240 (N.shiftr c 18);
          N.lor 128 (N.land (N.shiftr c 12) 63);
          N.lor 128 (N.land (N.shiftr c 6) 63);
          N.lor 128 (N.land c 63)]
  else None.

Fixpoint utf8_encode (s : pystr) : option (list N) :=
  match s with
  | [] => Some []
  | c :: s' =>
      match utf8_char c, utf8_encode s' with
      | Some bs, Some rest => Some (bs ++ rest)
      | _, _ => None
      end
  end.

Module SHA1.

Definition mask32 : N := 4294967295.
Definition add32 (a b : N) : N := N.land (a + b) mask32.
Definition not32 (a : N) : N := N.lxor a mask32.
Definition rotl (n a : N) : N :=
  N.land (N.lor (N.shiftl a n) (N.shiftr a (32 - n))) mask32.

(** Message padding: a 1 bit, zeros up to 56 modulo 64, then the length
    in bits as 8 big-endian bytes. *)
Definition be_bytes (count : nat) (v : N) : list N :=
  List.map (fun i => N.land (N.shiftr v (8 * N.of_nat i)) 255)
           (rev (seq 0 count)).

Definition pad (msg : list N) : list N :=
  let len := N.of_nat (List.length msg) in
  let zeros := N.to_nat ((119 - len mod 64) mod 64) in
  msg ++ [128] ++ repeat 0 zeros ++ be_bytes 8 (8 * len).

Fixpoint be_words (bs : list N) : list N :=
  match bs with
  | a :: b :: c :: d :: rest =>
      N.lor (N.shiftl a 24) (N.lor (N.shiftl b 16) (N.lor (N.shiftl c 8) d))
      :: be_words rest
  | _ => []
  end.

(** The message schedule, most recent word first. *)
Fixpoint schedule (count : nat) (recent : list N) : list N :=
  match count with
  | O => recent
  | S k =>
      let w := rotl 1 (N.lxor (N.lxor (nth 2 recent 0) (nth 7 recent 0))
                              (N.lxor (nth 13 recent 0) (nth 15 recent 0))) in
      schedule k (w :: recent)
  end.

Definition state : Type := N * N * N * N * N.

Definition round (i : nat) (w : N) (s : state) : state :=
  let '(a, b, c, d, e) := s in
  let '(f, k) :=
    if (i <? 20)%nat then (N.lor (N.land b c) (N.land (not32 b) d), 1518500249)
    else if (i <? 40)%nat then (N.lxor b (N.lxor c d), 1859775393)
    else if (i <? 60)%nat then
      (N.lor (N.land b c) (N.lor (N.land b d) (N.land c d)), 2400959708)
    else (N.lxor b (N.lxor c d), 3395469782) in
  let t := add32 (add32 (add32 (add32 (rotl 5 a) f) e) k) w in
  (t, a, rotl 30 b, c, d).

Fixpoint rounds (i : nat) (ws : list N) (s : state) : state :=
  match ws with
  | [] => s
  | w :: ws' => rounds (S i) ws' (round i w s)
  end.

Definition compress (h : state) (block : list N) : state :=
  let ws := rev (schedule 64 (rev (be_words block))) in
  let '(a, b, c, d, e) := rounds 0 ws h in
  let '(h0, h1, h2, h3, h4) := h in
  (add32 h0 a, add32 h1 b, add32 h2 c, add32 h3 d, add32 h4 e).

Fixpoint blocks (count : nat) (bs : list N) (h : state) : state :=
  match count with
  | O => h
  | S k => blocks k (skipn 64 bs) (compress h (firstn 64 bs))
  end.

Definition init : state :=
  (1732584193, 4023233417, 2562383102, 271733878, 3285377520).

Definition digest (msg : list N) : state :=
  let padded := pad msg in
  blocks (Nat.div (List.length padded) 64) padded init.

Definition hex_digit (v : N) : N :=
  if v <? 10 then 48 + v else 87 + v.

Definition hex_word (w : N) : pystr :=
  List.map (fun i => hex_digit (N.land (N.shiftr w (4 * N.of_nat i)) 15))
           (rev (seq 0 8)).

Definition hexdigest (msg : list N) : pystr :=
  let '(h0, h1, h2, h3, h4) := digest msg in
  hex_word h0 ++ hex_word h1 ++ hex_word h2 ++ hex_word h3 ++ hex_word h4.

End SHA1.

(** ** Decimal numbers: [str(n)] and [int(s)] *)

Fixpoint digits_of_uint (d : Decimal.uint) : pystr :=
  match d with
  | Decimal.Nil => []
  | Decimal.D0 d' => 48 :: digits_of_uint d'
  | Decimal.D1 d' => 49 :: digits_of_uint d'
  | Decimal.D2 d' => 50 :: digits_of_uint d'
  | Decimal.D3 d' => 51 :: digits_of_uint d'
  | Decimal.D4 d' => 52 :: digits_of_uint d'
  | Decimal.D5 d' => 53 :: digits_of_uint d'
  | Decimal.D6 d' => 54 :: digits_of_uint d'
  | Decimal.D7 d' => 55 :: digits_of_uint d'
  | Decimal.D8 d' => 56 :: digits_of_uint d'
  | Decimal.D9 d' => 57 :: digits_of_uint d'
  end.

Fixpoint uint_of_digits (s : pystr) : option Decimal.uint :=
  match s with
  | [] => Some Decimal.Nil
  | c :: s' =>
      match uint_of_digits s' with
      | None => None
      | Some d =>
          if c =? 48 then Some (Decimal.D0 d)
          else if c =? 49 then Some (Decimal.D1 d)
          else if c =? 50 then Some (Decimal.D2 d)
          else if c =? 51 then Some (Decimal.D3 d)
          else if c =? 52 then Some (Decimal.D4 d)
          else if c =? 53 then Some (Decimal.D5 d)
          else if c =? 54 then Some (Decimal.D6 d)
          else if c =? 55 then Some (Decimal.D7 d)
          else if c =? 56 then Some (Decimal.D8 d)
          else if c =? 57 then Some (Decimal.D9 d)
          else None
      end
  end.

(** [str(n)] for a counter [n >= 0]. *)
Definition str (n : nat) : pystr := digits_of_uint (N.to_uint (N.of_nat n)).

(** The white space [int] skips at both ends: that of [str.isspace] except
    the four separators U+001C to U+001F, which [int] does not accept. *)
Definition int_space (c : N) : bool :=
  isspace c && negb ((28 <=? c) && (c <=? 31)).

Definition is_digit_b (c : N) : bool := (48 <=? c) && (c <=? 57).

(** The digits of a decimal literal: ASCII digits, with single underscores
    between digits allowed (Python 3.6 and later); [None] for any other
    text. *)
Fixpoint digit_groups (s : pystr) : option pystr :=
  match s with
  | [] => None
  | c :: s' =>
      if is_digit_b c then
        match s' with
        | [] => Some [c]
        | u :: s'' =>
            match (if u =? 95 then digit_groups s'' else digit_groups s') with
            | Some ds => Some (c :: ds)
            | None => None
            end
        end
      else None
  end.

(** [int(s)]: surrounding white space, an optional sign, then a decimal
    literal. Decimal digits outside ASCII, which Python also accepts, are
    [ValueError] here; the index lines the program writes never contain
    them. *)
Definition int (s : pystr) : outcome Z :=
  let t := strip_by int_space s in
  let '(negative, ds) :=
    match t with
    | c :: r =>
        if c =? 45 then (true, r)
        else if c =? 43 then (false, r)
        else (false, t)
    | [] => (false, t)
    end in
  match digit_groups ds with
  | Some digits =>
      match uint_of_digits digits with
      | Some d =>
          let v := Z.of_N (N.of_uint d) in
          Return (if negative then (- v)%Z else v)
      | None => Raise ValueError
      end
  | None => Raise ValueError
  end.

(** ** The working directory and the external programs *)

Definition directory := list (pystr * pystr).

Record World : Type := mkWorld {
  files : directory;              (* name and content of the entries *)
  started : list (list pystr)     (* argument vectors given to [call] *)
}.

(** What the program does not decide: whether [open(path, "w")] or the
    write raises, and what a started program does to the directory and
    which exit status it returns (or that it cannot be started). *)
Record Toolchain : Type := mkToolchain {
  open_error : pystr -> directory -> option exn;
  write_error : pystr -> pystr -> option exn;
  run : list pystr -> directory -> outcome (Z * directory)
}.

Definition M (A : Type) : Type := World -> outcome A * World.

Definition ret {A} (a : A) : M A := fun w => (Return a, w).

Definition bind {A B} (m : M A) (k : A -> M B) : M B :=
  fun w =>
    match m w with
    | (Return a, w') => k a w'
    | (Raise e, w') => (Raise e, w')
    end.

Notation "'do' x <- m ;; k" := (bind m (fun x => k))
  (at level 10, x name, m at level 99, k at level 200).

Definition has_file (path : pystr) (d : directory) : bool :=
  existsb (fun e => pystr_eqb (fst e) path) d.

Definition without (keep_out : pystr -> bool) (d : directory) : directory :=
  List.filter (fun e => negb (keep_out (fst e))) d.

(** [os.path.isfile(path)] *)
Definition isfile (path : pystr) : M bool :=
  fun w => (Return (has_file path (files w)), w).

(** [with open(path, "w") as f: f.write(data)]: opening creates or
    truncates the file; a failing write leaves it empty. *)
Definition write_text (tc : Toolchain) (path data : pystr) : M unit :=
  fun w =>
    match open_error tc path (files w) with
    | Some e => (Raise e, w)
    | None =>
        let others := without (pystr_eqb path) (files w) in
        match write_error tc path data with
        | Some e => (Raise e, mkWorld ((path, []) :: others) (started w))
        | None => (Return tt, mkWorld ((path, data) :: others) (started w))
        end
    end.

(** [subprocess.call(args, ...)]: the exit status. *)
Definition call (tc : Toolchain) (args : list pystr) : M Z :=
  fun w =>
    let log := started w ++ [args] in
    match run tc args (files w) with
    | Raise e => (Raise e, mkWorld (files w) log)
    | Return (code, d) => (Return code, mkWorld d log)
    end.

(** [os.system("rm -rf " + prefix + "*")]: the shell expands the pattern to
    the entries whose name starts with [prefix]. The prefixes the program
    passes are built from hexadecimal digits, "_basic" and names of
    rendered files (no character special to the shell). *)
Definition rm_rf_prefix (prefix : pystr) : M unit :=
  fun w => (Return tt, mkWorld (without (startswith prefix) (files w)) (started w)).

(** [glob.glob(prefix + "*")] for such a prefix. *)
Definition glob_prefix (prefix : pystr) : M (list pystr) :=
  fun w => (Return (List.filter (startswith prefix) (List.map fst (files w))), w).

Fixpoint for_each {A} (l : list A) (body : A -> M unit) : M unit :=
  match l with
  | [] => ret tt
  | x :: l' => do _ <- body x ;; for_each l' body
  end.

(** ** formula2image.py *)

Module Formula2Image.

Definition MAX_IMAGES : nat := N.to_nat (300 * 1000).
Definition newline : pystr := [10].

(** [BASIC_SKELETON % formula] *)
Definition BASIC_SKELETON (formula : pystr) : pystr :=
  join newline
    [ py ""; py "\documentclass[12pt]{article}"; py "\pagestyle{empty}";
      py "\usepackage{amsmath}"; py "\begin{document}"; py "";
      py "\begin{displaymath}"; py "" ]
  ++ formula ++
  join newline [ py ""; py "\end{displaymath}"; py ""; py "\end{document}"; py "" ].

(** A render result: [[image name, render type], ...]. *)
Definition render_result := list (list pystr).

(** [hashlib.sha1(formula.encode('utf-8')).hexdigest()[:20]]; [None] when
    the expression raises. *)
Definition address (formula : pystr) : option pystr :=
  match utf8_encode formula with
  | Some bytes => Some (firstn 20 (SHA1.hexdigest bytes))
  | None => None
  end.

Definition formula_to_image (tc : Toolchain) (formula : pystr)
  : M (option render_result) :=
  match address formula with
  | None => ret None
  | Some name =>
      do present <- isfile (name ++ py ".png") ;;
      if present then ret None else
      let full_name := name ++ py "_basic" in
      let formula := strip_percent formula in
      let latex_str := BASIC_SKELETON formula in
      do _ <- write_text tc (full_name ++ py ".tex") latex_str ;;
      do code <- call tc [py "pdflatex"; py "-interaction=nonstopmode";
                          py "-halt-on-error"; full_name ++ py ".tex"] ;;
      if negb (code =? 0)%Z then
        do _ <- rm_rf_prefix full_name ;; ret None
      else
      do code <- call tc [py "pdftoppm"; full_name ++ py ".pdf"; full_name;
                          py "-png"; py "-singlefile"] ;;
      if negb (code =? 0)%Z then
        do _ <- rm_rf_prefix full_name ;; ret None
      else
      do resulted_images <- glob_prefix (full_name ++ py "-") ;;
      if (1 <? List.length resulted_images)%nat then
        do _ <- for_each resulted_images rm_rf_prefix ;; ret None
      else
        ret (Some [[full_name; py "basic"]])
  end.


(** [pool.imap(formula_to_image, formulas)]: one result per formula, in
    the order of the formulas. The workers are run one after the other;
    an exception of a worker is raised again in the consuming loop. *)
Fixpoint render_all (tc : Toolchain) (formulas : list pystr)
  : M (list (option render_result)) :=
  match formulas with
  | [] => ret []
  | formula :: rest =>
      do result <- formula_to_image tc formula ;;
      do names <- render_all tc rest ;;
      ret (result :: names)
  end.

(** The loop of [main] over [zipped] (lines 159 to 170). *)
Record index_state : Type := mkIndex {
  new_dataset_lines : list pystr;
  new_formulas : list pystr;
  ctr : nat
}.

Definition dataset_line (id : nat) (rendering_setup : list pystr) : pystr :=
  str id ++ py " " ++ join (py " ") rendering_setup.

Definition index_step (st : index_state)
    (formula : pystr * option render_result) : index_state :=
  match snd formula with
  | None => st
  | Some setups =>
      mkIndex
        (new_dataset_lines st ++ List.map (dataset_line (ctr st)) setups)
        (new_formulas st ++ [fst formula])
        (S (ctr st))
  end.

Definition build_index (zipped : list (pystr * option render_result))
  : index_state :=
  fold_left index_step zipped (mkIndex [] [] 0).

(** [s.endswith(suffix)] *)
Definition endswith (suffix s : pystr) : bool :=
  startswith (rev suffix) (rev s).

(** [os.system("rm -rf *" + suffix)] where the command succeeds: the shell
    pattern does not match names that start with a dot. The command is taken
    to run as written; it removes nothing when the expanded names exceed the
    argument size limit of the system or when one of them starts with a
    dash, two cases that are outside this model. *)
Definition rm_rf_suffix (suffix : pystr) : M unit :=
  fun w =>
    (Return tt,
     mkWorld (without (fun name => endswith suffix name
                                   && negb (startswith (py ".") name))
                      (files w))
             (started w)).

(** [main]: [content] is what [open(formula_list).read()] returns and
    [shuffle] the permutation [random.shuffle] applies. The result is the
    text written to [NEW_FORMULA_FILE] and to [DATASET_FILE]; both files
    are in the directory the program was started in, the [World] is the
    image directory it changes to. *)
Definition main (tc : Toolchain) (shuffle : list pystr -> list pystr)
    (content : pystr) : M (pystr * pystr) :=
  let formulas := firstn MAX_IMAGES (shuffle (split_on 10 content)) in
  do names <- render_all tc formulas ;;
  do _ <- rm_rf_suffix (py ".aux") ;;
  do _ <- rm_rf_suffix (py ".log") ;;
  do _ <- rm_rf_suffix (py ".pdf") ;;
  do _ <- rm_rf_suffix (py ".tex") ;;
  let st := build_index (combine formulas names) in
  ret (join newline (new_formulas st), join newline (new_dataset_lines st)).

(** [check_validity]: the arguments are the text of the two files and
    [os.listdir(formula_dir)]; the report is what the function prints. *)
Record report : Type := mkReport {
  length_mismatch : option (Z * nat);   (* the two numbers of the message *)
  missing_files : nat
}.

Definition in_listing (name : pystr) (listing : list pystr) : bool :=
  existsb (pystr_eqb name) listing.

(** One turn of the loop over [dataset_lines]; the state is
    [(max_id, missing_files)]. [max_id] holds the text of the first field
    (its initial value, the number 0, is kept as the text "0"). *)
Definition check_line (formula_images : list pystr) (st : pystr * nat)
    (line : pystr) : outcome (pystr * nat) :=
  if pystr_eqb line [] then Return st
  else
    let splt := split_on 32 line in
    let max_id := nth 0 splt [] in
    match nth_error splt 1 with
    | None => Raise IndexError
    | Some image =>
        if negb (in_listing (image ++ py ".png") formula_images)
        then Return (max_id, S (snd st))
        else Return (max_id, snd st)
    end.

Fixpoint check_lines (formula_images : list pystr) (st : pystr * nat)
    (dataset_lines : list pystr) : outcome (pystr * nat) :=
  match dataset_lines with
  | [] => Return st
  | line :: rest =>
      obind (check_line formula_images st line)
            (fun st' => check_lines formula_images st' rest)
  end.

Definition check_validity (dataset_file formula_file : pystr)
    (formula_images : list pystr) : outcome report :=
  let dataset_lines := split_on 10 dataset_file in
  let formula_file := split_on 10 formula_file in
  obind (check_lines formula_images (py "0", 0%nat) dataset_lines)
    (fun '(max_id, missing_files) =>
       obind (int max_id)
         (fun id =>
            if negb (id + 1 =? Z.of_nat (List.length formula_file))%Z
            then Return (mkReport (Some (id, List.length formula_file))
                                  missing_files)
            else Return (mkReport None missing_files))).

End Formula2Image.

(** ** latex2formulas.py *)

Module Latex2Formulas.

(** The five expressions of [PATTERNS] have one shape: a literal opening
    delimiter, the group [(.*?)], a literal closing delimiter. *)
Record pattern : Type := mkPattern { opening : pystr; closing : pystr }.

Definition PATTERNS : list pattern :=
  [ mkPattern (py "\begin{equation}") (py "\end{equation}");
    mkPattern (py "$$") (py "$$");
    mkPattern (py "$") (py "$");
    mkPattern (py "\[") (py "\]");
    mkPattern (py "\(") (py "\)") ].

Definition MIN_LENGTH : nat := 40.
Definition MAX_LENGTH : nat := 1024.

(** [(.*?)close] at the head of [s], with [re.DOTALL]: the shortest
    prefix of [s] that is followed by [close], and what follows the
    delimiter. *)
Fixpoint lazy_until (close s : pystr) : option (pystr * pystr) :=
  if startswith close s then Some ([], skipn (List.length close) s)
  else match s with
       | [] => None
       | c :: s' =>
           match lazy_until close s' with
           | Some (group, rest) => Some (c :: group, rest)
           | None => None
           end
       end.

(** The expression matched at the head of [s]. *)
Definition match_here (p : pattern) (s : pystr) : option (pystr * pystr) :=
  if startswith (opening p) s
  then lazy_until (closing p) (skipn (List.length (opening p)) s)
  else None.

(** [re.findall(pattern, s, re.DOTALL)]: the groups of the matches, found
    from left to right without overlap; the search goes on behind a
    match, and one character further where there is none. *)
Fixpoint findall_fuel (fuel : nat) (p : pattern) (s : pystr) : list pystr :=
  match fuel with
  | O => []
  | S fuel' =>
      match match_here p s with
      | Some (group, rest) => group :: findall_fuel fuel' p rest
      | None =>
          match s with
          | [] => []
          | _ :: s' => findall_fuel fuel' p s'
          end
      end
  end.

Definition findall (p : pattern) (s : pystr) : list pystr :=
  findall_fuel (S (List.length s)) p s.

(** The list comprehension of lines 48 and 49. *)
Definition in_window (x : pystr) : bool :=
  (List.length (strip x) <? MAX_LENGTH)%nat
  && (MIN_LENGTH <? List.length (strip x))%nat.

Definition clean (x : pystr) : pystr :=
  remove_char 13 (remove_char 10 (strip x)).

Definition retained (p : pattern) (latex : pystr) : list pystr :=
  List.map clean (List.filter in_window (findall p latex)).

(** [re.sub('\\label{.*}', '', x)]. The pattern text is [\label{.*}]: a
    backslash before the letter l, not an escaped backslash. Python from
    3.6 on refuses this escape when it compiles the pattern
    ([re.error: bad escape \l]); earlier versions read it as the letter l,
    so that the expression is the text [label{], the longest run of
    characters other than a newline, and [}]. *)
Inductive re_version : Type :=
| BadEscapeIsError
| BadEscapeIsLetter.

(** The length of [.*}] at the head of [s]: up to the last [}] before the
    first newline. *)
Fixpoint greedy_close (s : pystr) : option nat :=
  match s with
  | [] => None
  | c :: s' =>
      if c =? 10 then None
      else match greedy_close s' with
           | Some n => Some (S n)
           | None => if c =? 125 then Some 1%nat else None
           end
  end.

Fixpoint sub_label_fuel (fuel : nat) (s : pystr) : pystr :=
  match fuel with
  | O => s
  | S fuel' =>
      match s with
      | [] => []
      | c :: s' =>
          if startswith (py "label{") s then
            match greedy_close (skipn 6 s) with
            | Some n => sub_label_fuel fuel' (skipn (6 + n) s)
            | None => c :: sub_label_fuel fuel' s'
            end
          else c :: sub_label_fuel fuel' s'
      end
  end.

Definition re_sub_label (v : re_version) (x : pystr) : outcome pystr :=
  match v with
  | BadEscapeIsError => Raise ReError
  | BadEscapeIsLetter => Return (sub_label_fuel (S (List.length x)) x)
  end.

Fixpoint map_outcome {A B} (f : A -> outcome B) (l : list A)
  : outcome (list B) :=
  match l with
  | [] => Return []
  | x :: l' =>
      obind (f x) (fun y => obind (map_outcome f l') (fun ys => Return (y :: ys)))
  end.

(** One turn of the loop over [PATTERNS]; the state is
    [(final_result, final_result_mod)]. *)
Definition pattern_step (v : re_version) (latex : pystr)
    (acc : list pystr * list pystr) (p : pattern)
  : outcome (list pystr * list pystr) :=
  let result := retained p latex in
  obind (map_outcome (re_sub_label v) result)
    (fun result_mod => Return (fst acc ++ result, snd acc ++ result_mod)).

Fixpoint fold_outcome {A St} (step : St -> A -> outcome St) (l : list A) (st : St)
  : outcome St :=
  match l with
  | [] => Return st
  | x :: l' => obind (step st x) (fold_outcome step l')
  end.

Definition get_formulas (v : re_version) (latex : pystr)
  : outcome (list pystr * list pystr) :=
  fold_outcome (pattern_step v latex) PATTERNS ([], []).

(** [main]: an archive is the list of its members, name and text. The
    members are regular text files; a member that cannot be extracted and
    read as text (a directory below the top level, bytes that do not
    decode), on which [open] or [read] raises, is outside this model. The
    result is [(list(set(formulas)), formulas_mod)], the lines of the two
    files written. *)
Definition archive : Type := list (pystr * pystr).

Definition member_step (v : re_version) (acc : list pystr * list pystr)
    (member : pystr * pystr) : outcome (list pystr * list pystr) :=
  if negb (existsb (N.eqb 47) (fst member)) then Return acc
  else
    obind (get_formulas v (snd member))
      (fun '(final_result, final_result_mod) =>
         Return (fst acc ++ final_result, snd acc ++ final_result_mod)).

Definition archive_step (v : re_version) (acc : list pystr * list pystr)
    (tar : archive) : outcome (list pystr * list pystr) :=
  fold_outcome (member_step v) tar acc.

(** [set(formulas)] *)
Definition to_set (formulas : list pystr) : gset pystr :=
  list_to_set formulas.

Definition main (v : re_version) (latex_tars : list archive)
  : outcome (list pystr * list pystr) :=
  obind (fold_outcome (archive_step v) latex_tars ([], []))
    (fun '(formulas, formulas_mod) =>
       Return (elements (to_set formulas), formulas_mod)).

End Latex2Formulas.

(** ** Notions used in the statements *)

Module IndexFacts.
Import Formula2Image.

(** The id of an index line, read the way [check_validity] reads it. *)
Definition line_id (line : pystr) : outcome Z :=
  int (nth 0 (split_on 32 line) []).

(** The largest id of the lines of an index (0 for an empty index). *)
Definition max_id (lines : list pystr) : Z :=
  fold_right (fun line m =>
                match line_id line with
                | Return z => Z.max z m
                | Raise _ => m
                end) 0%Z lines.

(** The pairs with a render result, in their order. *)
Fixpoint survivors (zipped : list (pystr * option render_result))
  : list (pystr * render_result) :=
  match zipped with
  | [] => []
  | (f, Some r) :: rest => (f, r) :: survivors rest
  | (_, None) :: rest => survivors rest
  end.

(** The index lines of consecutive survivors, the first with id [id]. *)
Fixpoint rows (id : nat) (sv : list (pystr * render_result)) : list pystr :=
  match sv with
  | [] => []
  | (_, r) :: rest => List.map (dataset_line id) r ++ rows (S id) rest
  end.

(** A render result as the data model has it: not empty, each entry an
    image name and a variant. *)
Definition well_formed (r : render_result) : Prop :=
  r <> [] /\ Forall (fun rs => exists image variant, rs = [image; variant]) r.

(** The number of formulas with a render result. *)
Definition rendered (zipped : list (pystr * option render_result)) : nat :=
  List.length
    (List.filter (fun p => match snd p with Some _ => true | None => false end)
                 zipped).

(** The lines of the formula list as [check_validity] reads them back. *)
Definition persisted (formulas : list pystr) : list pystr :=
  split_on 10 (join newline formulas).

(** The ids of the lines of [rows id sv], line by line. *)
Fixpoint row_ids (id : nat) (sv : list (pystr * render_result)) : list nat :=
  match sv with
  | [] => []
  | (_, r) :: rest => repeat id (List.length r) ++ row_ids (S id) rest
  end.

(** An entry of a render result whose image name can be read back from an
    index line: no space in the image name, no newline in either part. *)
Definition readable (rs : list pystr) : Prop :=
  exists image variant,
    rs = [image; variant] /\ ~ In 32 image /\ ~ In 10 image /\ ~ In 10 variant.

(** The image names of the render results, in the order of the index. *)
Definition row_images (sv : list (pystr * render_result)) : list pystr :=
  flat_map (fun p => List.map (fun rs => nth 0 rs []) (snd p)) sv.

(** The number of images without a raster file in a directory listing. *)
Definition missing_count (listing images : list pystr) : nat :=
  List.length
    (List.filter (fun image => negb (in_listing (image ++ py ".png") listing))
                 images).

End IndexFacts.

Module Scenarios.
Import Formula2Image.

(** The names [formula_to_image] derives from an address. *)
Definition raster_of (name : pystr) : pystr := name ++ py ".png".
Definition full_name_of (name : pystr) : pystr := name ++ py "_basic".
Definition source_of (name : pystr) : pystr := full_name_of name ++ py ".tex".
Definition pdflatex_args (name : pystr) : list pystr :=
  [py "pdflatex"; py "-interaction=nonstopmode"; py "-halt-on-error";
   source_of name].
Definition pdftoppm_args (name : pystr) : list pystr :=
  [py "pdftoppm"; full_name_of name ++ py ".pdf"; full_name_of name;
   py "-png"; py "-singlefile"].

(** The directory after the source artifact of [formula] was written. *)
Definition with_source (name formula : pystr) (d : directory) : directory :=
  (source_of name, BASIC_SKELETON (strip_percent formula))
  :: without (pystr_eqb (source_of name)) d.

(** Every program starts, changes nothing and exits with status 0. *)
Definition quiet : Toolchain :=
  mkToolchain (fun _ _ => None) (fun _ _ => None) (fun _ d => Return (0%Z, d)).

(** The directory cannot be written to. *)
Definition read_only : Toolchain :=
  mkToolchain (fun _ _ => Some OSError) (fun _ _ => None)
              (fun _ d => Return (0%Z, d)).

(** The programs are not installed. *)
Definition no_programs : Toolchain :=
  mkToolchain (fun _ _ => None) (fun _ _ => None) (fun _ _ => Raise OSError).

Definition empty_world : World := mkWorld [] [].

(** The directory holds a raster named by the address of the formula x. *)
Definition rendered_x : World :=
  mkWorld [(py "11f6ad8ec52a2984abaa.png", [])] [].

(** Three formulas of a run; the second one failed to render. *)
Definition sample_zipped : list (pystr * option render_result) :=
  [ (py "x^2", Some [[py "0f3a_basic"; py "basic"]]);
    (py "\frac{", None);
    (py "y^2", Some [[py "77c1_basic"; py "basic"]]) ].

(** An index whose ids are not in increasing order, a formula list of
    two lines and the listing of a directory with both images. *)
Definition unsorted_index : pystr :=
  join newline [py "1 a basic"; py "0 b basic"].
Definition two_formulas : pystr := join newline [py "x^2"; py "y^2"].
Definition both_images : list pystr := [py "a.png"; py "b.png"].

(** The index, formula list and image listing of a run with five
    formulas. *)
Definition sorted_index : pystr :=
  join newline [py "0 a basic"; py "1 b basic"; py "2 c basic";
                py "3 d basic"; py "4 e basic"].
Definition five_formulas : pystr :=
  join newline [py "x"; py "y"; py "z"; py "u"; py "v"].
Definition four_formulas : pystr :=
  join newline [py "x"; py "y"; py "z"; py "u"].
Definition five_images : list pystr :=
  [py "a.png"; py "b.png"; py "c.png"; py "d.png"; py "e.png"].

(** A lowercase hexadecimal digit. *)
Definition is_hex (c : N) : Prop := 48 <= c <= 57 \/ 97 <= c <= 102.

(** The name of the program an argument vector starts. *)
Definition program (args : list pystr) : pystr := nth 0 args [].

(** The compiler exits with status 1 and leaves a log file. *)
Definition failing_compiler : Toolchain :=
  mkToolchain (fun _ _ => None) (fun _ _ => None)
    (fun args d =>
       if pystr_eqb (program args) (py "pdflatex")
       then Return (1%Z, (py "11f6ad8ec52a2984abaa_basic.log", py "! Missing $") :: d)
       else Return (0%Z, d)).

(** The compiler writes the document, the rasterizer exits with status 1. *)
Definition failing_rasterizer : Toolchain :=
  mkToolchain (fun _ _ => None) (fun _ _ => None)
    (fun args d =>
       if pystr_eqb (program args) (py "pdflatex")
       then Return (0%Z, (py "11f6ad8ec52a2984abaa_basic.pdf", py "%PDF") :: d)
       else Return (1%Z, d)).


(** The compiler runs, the rasterizer is not installed. *)
Definition no_rasterizer : Toolchain :=
  mkToolchain (fun _ _ => None) (fun _ _ => None)
    (fun args d =>
       if pystr_eqb (program args) (py "pdflatex")
       then Return (0%Z, (py "11f6ad8ec52a2984abaa_basic.pdf", py "%PDF") :: d)
       else Raise OSError).

(** The file can be created, but nothing can be written to it. *)
Definition full_disk : Toolchain :=
  mkToolchain (fun _ _ => None) (fun _ _ => Some OSError)
              (fun _ d => Return (0%Z, d)).

(** The rasterizer writes one image, named as with [-singlefile]. *)
Definition one_page : Toolchain :=
  mkToolchain (fun _ _ => None) (fun _ _ => None)
    (fun args d =>
       if pystr_eqb (program args) (py "pdflatex")
       then Return (0%Z, (py "11f6ad8ec52a2984abaa_basic.pdf", py "%PDF") :: d)
       else Return (0%Z, (py "11f6ad8ec52a2984abaa_basic.png", []) :: d)).

End Scenarios.

Module ExtractionFacts.
Import Latex2Formulas.

(** The comprehension of lines 48 and 49 on a list of spans. *)
Definition kept (spans : list pystr) : list pystr :=
  List.map clean (List.filter in_window spans).

(** The retained spans of a document, pattern after pattern. *)
Definition all_retained (latex : pystr) : list pystr :=
  flat_map (fun p => retained p latex) PATTERNS.

(** The texts of the members [main] reads: those with a slash in their
    name. *)
Fixpoint documents (members : archive) : list pystr :=
  match members with
  | [] => []
  | (name, text) :: rest =>
      if existsb (N.eqb 47) name then text :: documents rest
      else documents rest
  end.

(** The formulas of a list of documents, in the order [main] collects
    them. *)
Fixpoint gather (v : re_version) (docs : list pystr)
  : outcome (list pystr * list pystr) :=
  match docs with
  | [] => Return ([], [])
  | d :: rest =>
      obind (get_formulas v d)
        (fun r => obind (gather v rest)
                    (fun rs => Return (fst r ++ fst rs, snd r ++ snd rs)))
  end.

(** The set of unique formulas a run of [main] writes. *)
Definition unique_formulas (v : re_version) (latex_tars : list archive)
  : outcome (gset pystr) :=
  obind (main v latex_tars) (fun r => Return (to_set (fst r))).

(** A formula of 40 characters, and the documents that hold it, and the
    same formula with one more character, between dollar signs. *)
Definition forty : pystr := py "a+b+c+d+e+f+g+h+i+j+k+l+m+n+o+p+q+r+s+tt".
Definition in_dollars (x : pystr) : pystr := py "$" ++ x ++ py "$".

(** A formula of MAX_LENGTH characters. *)
Definition long_formula : pystr := repeat 120 MAX_LENGTH.

(** An equation with a label, long enough to be retained. *)
Definition labelled : pystr :=
  py "\begin{equation} a+b+c+d+e+f+g+h+i+j+k+l+m+n+o+p=q \label{eq:1} \end{equation}".
Definition labelled_raw : pystr :=
  py "a+b+c+d+e+f+g+h+i+j+k+l+m+n+o+p=q \label{eq:1}".
Definition labelled_without_label : pystr :=
  py "a+b+c+d+e+f+g+h+i+j+k+l+m+n+o+p=q ".
Definition labelled_as_computed : pystr :=
  py "a+b+c+d+e+f+g+h+i+j+k+l+m+n+o+p=q \".

(** [re.sub('\\label{.*}', '', x)] where the escape is read as a letter. *)
Definition sub_label (x : pystr) : pystr :=
  sub_label_fuel (S (List.length x)) x.

(** The retained spans of a list of documents, document after document. *)
Definition all_spans (docs : list pystr) : list pystr :=
  flat_map all_retained docs.

End ExtractionFacts.

(** * Properties *)

(** ** The library functions on known values *)

Example sha1_empty :
  SHA1.hexdigest [] = py "da39a3ee5e6b4b0d3255bfef95601890afd80709".
Proof. vm_compute. reflexivity. Qed.

Example sha1_abc :
  SHA1.hexdigest (py "abc") = py "a9993e364706816aba3e25717850c26c9cd0d89d".
Proof. vm_compute. reflexivity. Qed.

Example sha1_two_blocks :
  SHA1.hexdigest (py "abcdbcdecdefdefgefghfghighijhijkijkljklmklmnlmnomnopnopq")
  = py "84983e441c3bd26ebaae4aa1f95129e5e54670f1".
Proof. vm_compute. reflexivity. Qed.

Example utf8_two_bytes :
  utf8_encode [233] = Some [195; 169].
Proof. reflexivity. Qed.

Example utf8_three_bytes :
  utf8_encode [8364] = Some [226; 130; 172].
Proof. reflexivity. Qed.

Example utf8_surrogate :
  utf8_encode [97; 55296] = None.
Proof. reflexivity. Qed.

Example str_0 :
  str 0 = py "0".
Proof. reflexivity. Qed.

Example str_1203 :
  str 1203 = py "1203".
Proof. vm_compute. reflexivity. Qed.

Example int_17 :
  int (py " 17") = Return 17%Z.
Proof. vm_compute. reflexivity. Qed.

Example int_neg :
  int (py "-4") = Return (-4)%Z.
Proof. vm_compute. reflexivity. Qed.

Example int_empty :
  int (py "") = Raise ValueError.
Proof. reflexivity. Qed.

Example int_word :
  int (py "x1") = Raise ValueError.
Proof. vm_compute. reflexivity. Qed.

Example int_underscore :
  int (py "1_0") = Return 10%Z /\ int (py "1__0") = Raise ValueError
  /\ int (py "_1") = Raise ValueError /\ int (py "1_") = Raise ValueError.
Proof. repeat split; vm_compute; reflexivity. Qed.

Example int_separator :
  int [28; 49] = Raise ValueError /\ int [160; 49; 10] = Return 1%Z.
Proof. split; vm_compute; reflexivity. Qed.

Example split_empty :
  split_on 10 (py "") = [py ""].
Proof. reflexivity. Qed.

Example split_fields :
  split_on 32 (py "3 ab basic") = [py "3"; py "ab"; py "basic"].
Proof. vm_compute. reflexivity. Qed.

Example strip_both_ends :
  strip_percent (py "%%a%b%") = py "a%b".
Proof. vm_compute. reflexivity. Qed.

Example findall_single_dollars :
  Latex2Formulas.findall (Latex2Formulas.mkPattern (py "$") (py "$"))
                         (py "$$a$$ $b$ $c")
  = [py ""; py ""; py "b"].
Proof. vm_compute. reflexivity. Qed.

Example findall_double_dollars :
  Latex2Formulas.findall (Latex2Formulas.mkPattern (py "$$") (py "$$"))
                         (py "$$a$$ $b$ $$c")
  = [py "a"].
Proof. vm_compute. reflexivity. Qed.

Example sub_label_greedy :
  Latex2Formulas.re_sub_label Latex2Formulas.BadEscapeIsLetter
    (py "a \label{x} + \frac{1}{2} z")
  = Return (py "a \ z").
Proof. vm_compute. reflexivity. Qed.

(** ** Strings and numbers *)

Definition is_digit (c : N) : Prop := 48 <= c <= 57.

Lemma uint_of_digits_of_uint (d : Decimal.uint) :
  uint_of_digits (digits_of_uint d) = Some d.
Proof. induction d; simpl; try rewrite IHd; reflexivity. Qed.

Lemma digits_of_uint_digits (d : Decimal.uint) :
  Forall is_digit (digits_of_uint d).
Proof.
  induction d; simpl; constructor; auto; unfold is_digit; lia.
Qed.

Lemma str_not_empty (n : nat) : str n <> [].
Proof.
  unfold str. destruct (N.of_nat n) as [|p]; simpl; [discriminate|].
  pose proof (DecimalPos.Unsigned.to_uint_nonnil p) as Hp.
  destruct (Pos.to_uint p); simpl; congruence.
Qed.

Lemma str_digits (n : nat) : Forall is_digit (str n).
Proof. apply digits_of_uint_digits. Qed.

Lemma is_digit_not_space (c : N) : is_digit c -> isspace c = false.
Proof.
  unfold is_digit, isspace. intros Hc.
  repeat match goal with
         | |- context [?a <=? ?b] => destruct (N.leb_spec a b)
         | |- context [?a =? ?b] => destruct (N.eqb_spec a b)
         end; simpl; try reflexivity; lia.
Qed.

Lemma lstrip_by_head (p : N -> bool) (c : N) (s : pystr) :
  p c = false -> lstrip_by p (c :: s) = c :: s.
Proof. intros H. simpl. rewrite H. reflexivity. Qed.

Lemma strip_by_ends (p : N -> bool) (s : pystr) :
  s <> [] -> Forall (fun c => p c = false) s -> strip_by p s = s.
Proof.
  intros Hne Hall. unfold strip_by, rstrip_by.
  destruct s as [|c s']; [congruence|].
  rewrite lstrip_by_head by (inversion Hall; assumption).
  destruct (rev (c :: s')) as [|x t] eqn:Hrev.
  - apply (f_equal (@List.length N)) in Hrev.
    rewrite length_rev in Hrev. discriminate.
  - assert (Hx : p x = false).
    { rewrite Forall_forall in Hall. apply Hall.
      apply list_elem_of_In, in_rev. rewrite Hrev. left. reflexivity. }
    rewrite lstrip_by_head by assumption.
    rewrite <- Hrev. apply rev_involutive.
Qed.

Lemma strip_str (n : nat) : strip (str n) = str n.
Proof.
  apply strip_by_ends; [apply str_not_empty|].
  eapply Forall_impl; [apply str_digits|].
  intros c Hc. apply is_digit_not_space. exact Hc.
Qed.

Lemma is_digit_b_true (c : N) : is_digit c -> is_digit_b c = true.
Proof.
  unfold is_digit, is_digit_b. intros Hc.
  apply andb_true_iff. split; apply N.leb_le; lia.
Qed.

Lemma digit_groups_digits (s : pystr) :
  s <> [] -> Forall is_digit s -> digit_groups s = Some s.
Proof.
  induction s as [|c s IH]; intros Hne Hd; [congruence|].
  inversion Hd as [|? ? Hc Hs]; subst. cbn [digit_groups].
  rewrite (is_digit_b_true c Hc).
  destruct s as [|u s'']; [reflexivity|].
  assert (Hu : is_digit u) by (inversion Hs; assumption).
  destruct (N.eqb_spec u 95) as [->|_]; [unfold is_digit in Hu; lia|].
  rewrite IH by (discriminate || exact Hs). reflexivity.
Qed.

Lemma int_digits (s : pystr) (d : Decimal.uint) :
  s <> [] -> Forall is_digit s -> uint_of_digits s = Some d ->
  int s = Return (Z.of_N (N.of_uint d)).
Proof.
  intros Hne Hd Hu. unfold int.
  assert (Hs : strip_by int_space s = s).
  { apply strip_by_ends; [exact Hne|].
    eapply Forall_impl; [exact Hd|]. intros c Hc.
    unfold int_space. rewrite (is_digit_not_space c Hc). reflexivity. }
  rewrite Hs. clear Hs.
  destruct s as [|c r] eqn:Hcr; [congruence|].
  assert (Hc : is_digit c) by (inversion Hd; assumption).
  unfold is_digit in Hc.
  destruct (N.eqb_spec c 45); [lia|]. destruct (N.eqb_spec c 43); [lia|].
  rewrite (digit_groups_digits (c :: r) Hne Hd), Hu. reflexivity.
Qed.

(** Reading back a printed counter gives the counter. *)
Lemma int_str (n : nat) : int (str n) = Return (Z.of_nat n).
Proof.
  rewrite (int_digits (str n) (N.to_uint (N.of_nat n))).
  - rewrite DecimalN.Unsigned.of_to, nat_N_Z. reflexivity.
  - apply str_not_empty.
  - apply str_digits.
  - apply uint_of_digits_of_uint.
Qed.

Lemma split_on_not_nil (c : N) (s : pystr) : split_on c s <> [].
Proof.
  induction s as [|x s IH]; simpl; [discriminate|].
  destruct (x =? c); [discriminate|].
  destruct (split_on c s); discriminate.
Qed.

Lemma split_on_field (c : N) (a b : pystr) :
  ~ In c a -> split_on c (a ++ c :: b) = a :: split_on c b.
Proof.
  induction a as [|x a IH]; intros Hnot; simpl.
  - rewrite N.eqb_refl. reflexivity.
  - destruct (N.eqb_spec x c) as [->|Hne].
    + exfalso. apply Hnot. left. reflexivity.
    + rewrite IH; [reflexivity|]. intros Hin. apply Hnot. right. exact Hin.
Qed.

Lemma split_on_whole (c : N) (a : pystr) : ~ In c a -> split_on c a = [a].
Proof.
  induction a as [|x a IH]; intros Hnot; simpl; [reflexivity|].
  destruct (N.eqb_spec x c) as [->|Hne].
  - exfalso. apply Hnot. left. reflexivity.
  - rewrite IH; [reflexivity|]. intros Hin. apply Hnot. right. exact Hin.
Qed.

(** Splitting a joined list gives the list back when no element holds the
    separator; the empty list is read back as one empty line. *)
Lemma split_on_join (c : N) (l : list pystr) :
  l <> [] -> Forall (fun x => ~ In c x) l -> split_on c (join [c] l) = l.
Proof.
  induction l as [|x l IH]; intros Hne Hall; [congruence|].
  inversion Hall as [|? ? Hx Hl]; subst.
  destruct l as [|y l'].
  - simpl. apply split_on_whole. exact Hx.
  - change (join [c] (x :: y :: l')) with (x ++ c :: join [c] (y :: l')).
    rewrite split_on_field by exact Hx.
    rewrite IH; [reflexivity|discriminate|exact Hl].
Qed.

(** ** The index builder of formula2image.py *)

Section IndexBuilder.
Import Formula2Image IndexFacts.

Lemma line_id_dataset_line (id : nat) (rs : list pystr) :
  line_id (dataset_line id rs) = Return (Z.of_nat id).
Proof.
  unfold line_id, dataset_line. change (py " ") with [32]. simpl app.
  rewrite split_on_field.
  - simpl. apply int_str.
  - intros Hin. pose proof (str_digits id) as Hd.
    rewrite List.Forall_forall in Hd. apply Hd in Hin.
    unfold is_digit in Hin. lia.
Qed.

Lemma fold_index (zipped : list (pystr * option render_result))
    (st : index_state) :
  fold_left index_step zipped st
  = mkIndex (new_dataset_lines st ++ rows (ctr st) (survivors zipped))
            (new_formulas st ++ List.map fst (survivors zipped))
            (ctr st + List.length (survivors zipped)).
Proof.
  revert st. induction zipped as [|[f [r|]] rest IH]; intros st; simpl.
  - rewrite !app_nil_r, Nat.add_0_r. destruct st; reflexivity.
  - rewrite IH. unfold index_step. simpl.
    rewrite <- !app_assoc. simpl. f_equal. lia.
  - rewrite IH. reflexivity.
Qed.

Lemma build_index_survivors (zipped : list (pystr * option render_result)) :
  build_index zipped
  = mkIndex (rows 0 (survivors zipped)) (List.map fst (survivors zipped))
            (List.length (survivors zipped)).
Proof. unfold build_index. rewrite fold_index. reflexivity. Qed.

Lemma survivors_app (a b : list (pystr * option render_result)) :
  survivors (a ++ b) = survivors a ++ survivors b.
Proof.
  induction a as [|[f [r|]] a IH]; simpl; [reflexivity| |exact IH].
  rewrite IH. reflexivity.
Qed.

Lemma in_survivors (zipped : list (pystr * option render_result))
    (f : pystr) (r : render_result) :
  In (f, r) (survivors zipped) <-> In (f, Some r) zipped.
Proof.
  induction zipped as [|[g [q|]] rest IH]; simpl; [tauto| |].
  - rewrite IH. split; intros [H|H]; auto; left; congruence.
  - rewrite IH. split; [auto|]. intros [H|H]; [discriminate|exact H].
Qed.

Lemma length_survivors (zipped : list (pystr * option render_result)) :
  List.length (survivors zipped) = rendered zipped.
Proof.
  unfold rendered.
  induction zipped as [|[f [r|]] rest IH]; simpl; [reflexivity| |exact IH].
  rewrite IH. reflexivity.
Qed.

Lemma rows_app (id : nat) (a b : list (pystr * render_result)) :
  rows id (a ++ b) = rows id a ++ rows (id + List.length a) b.
Proof.
  revert id. induction a as [|[f r] a IH]; intros id; simpl.
  - rewrite Nat.add_0_r. reflexivity.
  - rewrite IH, <- app_assoc. do 3 f_equal. lia.
Qed.

Lemma in_rows (id : nat) (sv : list (pystr * render_result)) (line : pystr) :
  In line (rows id sv) <->
  exists i f r rs,
    nth_error sv i = Some (f, r) /\ In rs r /\ line = dataset_line (id + i) rs.
Proof.
  revert id. induction sv as [|[f r] sv IH]; intros id; simpl.
  - split; [tauto|]. intros (i & g & q & rs & Hnth & _).
    destruct i; discriminate.
  - rewrite in_app_iff, in_map_iff, IH. split.
    + intros [(rs & <- & Hin)|(i & g & q & rs & Hnth & Hin & ->)].
      * exists 0%nat, f, r, rs. rewrite Nat.add_0_r. auto.
      * exists (S i), g, q, rs. simpl. rewrite Nat.add_succ_r. auto.
    + intros (i & g & q & rs & Hnth & Hin & ->). destruct i as [|i]; simpl in Hnth.
      * injection Hnth as <- <-. left. exists rs.
        rewrite Nat.add_0_r. auto.
      * right. exists i, g, q, rs. rewrite Nat.add_succ_r. auto.
Qed.

(** The ids of the lines of [rows 0 sv] are the positions in [sv]. *)
Lemma rows_ids (sv : list (pystr * render_result)) (z : Z) :
  (forall f r, In (f, r) sv -> r <> []) ->
  (exists line, In line (rows 0 sv) /\ line_id line = Return z)
  <-> (0 <= z < Z.of_nat (List.length sv))%Z.
Proof.
  intros Hne. split.
  - intros (line & Hin & Hid).
    apply in_rows in Hin as (i & f & r & rs & Hnth & _ & ->).
    rewrite line_id_dataset_line in Hid. injection Hid as <-.
    assert (i < List.length sv)%nat by (apply nth_error_Some; congruence).
    simpl. lia.
  - intros Hz.
    destruct (nth_error sv (Z.to_nat z)) as [[f r]|] eqn:Hnth.
    2:{ apply nth_error_None in Hnth. lia. }
    assert (Hr : r <> []) by (apply (Hne f); eapply nth_error_In; exact Hnth).
    destruct r as [|rs r']; [congruence|].
    exists (dataset_line (Z.to_nat z) rs). split.
    + apply in_rows. exists (Z.to_nat z), f, (rs :: r'), rs.
      split; [exact Hnth|]. split; [left; reflexivity|reflexivity].
    + rewrite line_id_dataset_line. f_equal. lia.
Qed.

Lemma max_id_nonneg (lines : list pystr) : (0 <= max_id lines)%Z.
Proof.
  induction lines as [|line lines IH]; simpl; [lia|].
  destruct (line_id line); lia.
Qed.

Lemma max_id_upper (lines : list pystr) (m : Z) :
  (0 <= m)%Z ->
  (forall line z, In line lines -> line_id line = Return z -> (z <= m)%Z) ->
  (max_id lines <= m)%Z.
Proof.
  intros Hm. induction lines as [|line lines IH]; intros Hall; simpl; [lia|].
  assert (max_id lines <= m)%Z
    by (apply IH; intros l z Hl; apply Hall; right; exact Hl).
  destruct (line_id line) as [z|] eqn:Hz; [|assumption].
  pose proof (Hall line z (or_introl eq_refl) Hz). lia.
Qed.

Lemma max_id_lower (lines : list pystr) (line : pystr) (z : Z) :
  In line lines -> line_id line = Return z -> (z <= max_id lines)%Z.
Proof.
  induction lines as [|l lines IH]; intros Hin Hz; simpl; [destruct Hin|].
  destruct Hin as [->|Hin].
  - rewrite Hz. lia.
  - specialize (IH Hin Hz). destruct (line_id l); lia.
Qed.

Lemma persisted_formulas (formulas : list pystr) :
  Forall (fun f => ~ In 10 f) formulas ->
  persisted formulas = match formulas with [] => [[]] | _ => formulas end.
Proof.
  intros Hall. unfold persisted, newline.
  destruct formulas as [|f fs]; [reflexivity|].
  apply split_on_join; [discriminate|exact Hall].
Qed.

Lemma nth_error_survivors (zipped : list (pystr * option render_result))
    (i : nat) (f : pystr) (r : render_result) :
  nth_error (survivors zipped) i = Some (f, r) ->
  exists pre post,
    zipped = pre ++ (f, Some r) :: post /\ List.length (survivors pre) = i.
Proof.
  revert i. induction zipped as [|[g [q|]] rest IH]; intros i Hnth; simpl in Hnth.
  - destruct i; discriminate.
  - destruct i as [|i]; simpl in Hnth.
    + injection Hnth as -> ->. exists [], rest. auto.
    + destruct (IH i Hnth) as (pre & post & -> & Hlen).
      exists ((g, Some q) :: pre), post. simpl. auto.
  - destruct (IH i Hnth) as (pre & post & -> & Hlen).
    exists ((g, None) :: pre), post. simpl. auto.
Qed.

(** C6: pairs without a result are skipped, the ids of the index lines
    are exactly 0, ..., k-1 for k the number of formulas with a render
    result, and each line reads "<id> <image-name> <variant>": every line
    is the id of a formula followed by the image name and the variant of one
    entry of its render result, and every entry of a render result has its
    line. *)
Theorem index_ids_dense (zipped : list (pystr * option render_result)) :
  (forall f r, In (f, Some r) zipped -> well_formed r) ->
  let st := build_index zipped in
  let k := rendered zipped in
  (forall pre f post,
      zipped = pre ++ (f, None) :: post -> st = build_index (pre ++ post))
  /\ (forall z,
        (exists line, In line (new_dataset_lines st) /\ line_id line = Return z)
        <-> (0 <= z < Z.of_nat k)%Z)
  /\ (forall line,
        In line (new_dataset_lines st) ->
        exists id f r image variant,
          (id < k)%nat
          /\ In (f, Some r) zipped
          /\ nth_error (new_formulas st) id = Some f
          /\ In [image; variant] r
          /\ line = str id ++ py " " ++ image ++ py " " ++ variant)
  /\ (forall f r image variant,
        In (f, Some r) zipped -> In [image; variant] r ->
        exists id,
          (id < k)%nat
          /\ nth_error (new_formulas st) id = Some f
          /\ In (str id ++ py " " ++ image ++ py " " ++ variant)
                (new_dataset_lines st)).
Proof.
  intros Hwf st k. subst st k.
  rewrite build_index_survivors, <- length_survivors. simpl.
  split; [|split; [|split]].
  - intros pre f post ->. rewrite build_index_survivors.
    rewrite !survivors_app. reflexivity.
  - intros z. apply rows_ids. intros f r Hin.
    apply in_survivors, Hwf in Hin. apply Hin.
  - intros line Hin.
    apply in_rows in Hin as (i & f & r & rs & Hnth & Hrs & ->).
    assert (Hzip : In (f, Some r) zipped)
      by (apply in_survivors; eapply nth_error_In; exact Hnth).
    destruct (Hwf f r Hzip) as [_ Hshape]. rewrite List.Forall_forall in Hshape.
    destruct (Hshape rs Hrs) as (image & variant & ->).
    exists i, f, r, image, variant. split; [|split; [|split; [|split]]].
    + apply nth_error_Some. congruence.
    + exact Hzip.
    + rewrite nth_error_map, Hnth. reflexivity.
    + exact Hrs.
    + reflexivity.
  - intros f r image variant Hzip Hrs.
    apply in_survivors in Hzip. apply In_nth_error in Hzip as [i Hnth].
    exists i. split; [|split].
    + apply nth_error_Some. congruence.
    + rewrite nth_error_map, Hnth. reflexivity.
    + apply in_rows. exists i, f, r, [image; variant].
      split; [exact Hnth|]. split; [exact Hrs|reflexivity].
Qed.

(** C5: the two artifacts are positionally consistent. The rows a formula
    produces carry the value of the counter at its turn, the line of the
    persisted formula list at that offset is this formula, every row of the
    index is produced this way, and the largest id plus 1 is the number of
    lines of the persisted formula list. The formulas are lines of a file
    (no newline inside) and a render result is not empty. *)
Theorem index_positionally_consistent
    (zipped : list (pystr * option render_result)) :
  (forall f r, In (f, Some r) zipped -> r <> [] /\ ~ In 10 f) ->
  let st := build_index zipped in
  let formula_lines := persisted (new_formulas st) in
  (forall pre f r post,
      zipped = pre ++ (f, Some r) :: post ->
      let id := ctr (build_index pre) in
      new_dataset_lines (build_index (pre ++ [(f, Some r)]))
      = new_dataset_lines (build_index pre) ++ List.map (dataset_line id) r
      /\ (forall line,
            In line (List.map (dataset_line id) r) ->
            In line (new_dataset_lines st)
            /\ line_id line = Return (Z.of_nat id))
      /\ nth_error formula_lines id = Some f)
  /\ (forall line,
        In line (new_dataset_lines st) ->
        exists pre f r post,
          zipped = pre ++ (f, Some r) :: post
          /\ In line (List.map (dataset_line (ctr (build_index pre))) r))
  /\ (max_id (new_dataset_lines st) + 1)%Z
     = Z.of_nat (List.length formula_lines).
Proof.
  intros Hok st formula_lines. subst st formula_lines.
  assert (Hne : forall f r, In (f, r) (survivors zipped) -> r <> []).
  { intros f r Hin. apply in_survivors, Hok in Hin. apply Hin. }
  assert (Hlines : persisted (List.map fst (survivors zipped))
                   = match survivors zipped with
                     | [] => [[]]
                     | _ => List.map fst (survivors zipped)
                     end).
  { rewrite persisted_formulas.
    - destruct (survivors zipped); reflexivity.
    - apply List.Forall_forall. intros f Hin.
      apply in_map_iff in Hin as ([g r] & <- & Hin).
      apply in_survivors, Hok in Hin. apply Hin. }
  rewrite build_index_survivors. simpl. rewrite Hlines.
  split; [|split].
  - intros pre f r post ->.
    rewrite !build_index_survivors. simpl.
    rewrite !survivors_app. simpl survivors.
    split; [|split].
    + rewrite rows_app. simpl. rewrite app_nil_r. reflexivity.
    + intros line Hin. split.
      * rewrite rows_app. apply in_or_app. right. simpl.
        apply in_or_app. left. exact Hin.
      * apply in_map_iff in Hin as (rs & <- & _).
        apply line_id_dataset_line.
    + destruct (survivors pre ++ (f, r) :: survivors post) eqn:Hsv.
      { destruct (survivors pre); discriminate. }
      rewrite <- Hsv, map_app. simpl.
      rewrite nth_error_app2; rewrite length_map; [|lia].
      rewrite Nat.sub_diag. reflexivity.
  - intros line Hin.
    apply in_rows in Hin as (i & f & r & rs & Hnth & Hrs & ->).
    destruct (nth_error_survivors _ _ _ _ Hnth) as (pre & post & -> & Hlen).
    exists pre, f, r, post. split; [reflexivity|].
    rewrite build_index_survivors. simpl. rewrite Hlen.
    apply in_map. exact Hrs.
  - destruct (survivors zipped) as [|[f r] sv] eqn:Hsv; [reflexivity|].
    rewrite <- Hsv in *. rewrite length_map.
    assert (Hk : (0 < List.length (survivors zipped))%nat)
      by (rewrite Hsv; simpl; lia).
    assert (max_id (rows 0 (survivors zipped))
            = Z.of_nat (List.length (survivors zipped)) - 1)%Z; [|lia].
    apply Z.le_antisymm.
    + apply max_id_upper; [lia|]. intros line z Hin Hz.
      assert (0 <= z < Z.of_nat (List.length (survivors zipped)))%Z
        by (apply (rows_ids _ z Hne); eauto).
      lia.
    + destruct (proj2 (rows_ids (survivors zipped)
                         (Z.of_nat (List.length (survivors zipped)) - 1) Hne))
        as (line & Hin & Hz); [lia|].
      eapply max_id_lower; eassumption.
Qed.

Lemma sample_zipped_well_formed (f : pystr) (r : render_result) :
  In (f, Some r) Scenarios.sample_zipped -> well_formed r /\ ~ In 10 f.
Proof.
  intros [H|[H|[H|[]]]]; inversion H; subst; (split; [split|]).
  all: try discriminate.
  all: try (repeat constructor; eauto).
  all: vm_compute; intuition discriminate.
Qed.

Lemma index_ids_dense_witness :
  (exists line,
      In line (new_dataset_lines (build_index Scenarios.sample_zipped))
      /\ line_id line = Return 1%Z)
  /\ (exists id,
        (id < rendered Scenarios.sample_zipped)%nat
        /\ nth_error (new_formulas (build_index Scenarios.sample_zipped)) id
           = Some (py "y^2")
        /\ In (str id ++ py " " ++ py "77c1_basic" ++ py " " ++ py "basic")
              (new_dataset_lines (build_index Scenarios.sample_zipped))).
Proof.
  destruct (index_ids_dense Scenarios.sample_zipped) as (_ & Hids & _ & Hrows).
  - intros f r Hin. apply (sample_zipped_well_formed f r Hin).
  - split.
    + apply (proj2 (Hids 1%Z)). vm_compute. split; [discriminate|reflexivity].
    + apply (Hrows (py "y^2") [[py "77c1_basic"; py "basic"]]).
      * right. right. left. reflexivity.
      * left. reflexivity.
Defined.

Lemma index_positionally_consistent_witness :
  nth_error
    (persisted (new_formulas (build_index Scenarios.sample_zipped))) 1
  = Some (py "y^2")
  /\ (max_id (new_dataset_lines (build_index Scenarios.sample_zipped)) + 1)%Z
     = 2%Z.
Proof.
  destruct (index_positionally_consistent Scenarios.sample_zipped)
    as (Hrows & _ & Hmax).
  - intros f r Hin. destruct (sample_zipped_well_formed f r Hin) as [[Hne _] Hnl].
    split; assumption.
  - split; [|exact Hmax].
    apply (Hrows [(py "x^2", Some [[py "0f3a_basic"; py "basic"]]);
                  (py "\frac{", None)]
                 (py "y^2") [[py "77c1_basic"; py "basic"]] []).
    reflexivity.
Defined.

End IndexBuilder.

(** ** The render step of formula2image.py *)

Section RenderStep.
Import Formula2Image IndexFacts Scenarios.

Variable tc : Toolchain.

Lemma hex_word_length (w : N) : List.length (SHA1.hex_word w) = 8%nat.
Proof. unfold SHA1.hex_word. rewrite length_map, length_rev, length_seq. reflexivity. Qed.

Lemma hexdigest_length (msg : list N) : List.length (SHA1.hexdigest msg) = 40%nat.
Proof.
  unfold SHA1.hexdigest.
  destruct (SHA1.digest msg) as [[[[h0 h1] h2] h3] h4].
  rewrite !length_app, !hex_word_length. reflexivity.
Qed.

Lemma address_length (f name : pystr) :
  address f = Some name -> List.length name = 20%nat.
Proof.
  unfold address. destruct (utf8_encode f) as [bytes|]; [|discriminate].
  intros [= <-]. rewrite length_firstn, hexdigest_length. reflexivity.
Qed.

(** The run of [formula_to_image] up to the check of the raster. *)
Lemma formula_to_image_skip (f name : pystr) (w : World) :
  address f = Some name ->
  has_file (raster_of name) (files w) = true ->
  formula_to_image tc f w = (Return None, w).
Proof.
  intros Ha Hf. unfold formula_to_image. rewrite Ha.
  unfold bind, isfile. fold (raster_of name). rewrite Hf. reflexivity.
Qed.

Lemma formula_to_image_no_address (f : pystr) (w : World) :
  address f = None -> formula_to_image tc f w = (Return None, w).
Proof. intros Ha. unfold formula_to_image. rewrite Ha. reflexivity. Qed.

(** The test of line 74: a formula for which the file named by its address
    and ".png" exists is skipped (nothing written, no program started) with
    the null result; a run over such formulas builds an empty index and an
    empty formula list. The pipeline itself writes another name, see
    [raster_check_misses_rendered_file]. *)
Theorem existing_raster_skipped_as_null (w : World) (formulas : list pystr) :
  (forall f, In f formulas ->
     exists name, address f = Some name
                  /\ has_file (raster_of name) (files w) = true) ->
  (forall f, In f formulas -> formula_to_image tc f w = (Return None, w))
  /\ exists names,
       render_all tc formulas w = (Return names, w)
       /\ build_index (combine formulas names) = mkIndex [] [] 0.
Proof.
  intros Hall.
  assert (Hskip : forall f, In f formulas ->
                            formula_to_image tc f w = (Return None, w)).
  { intros f Hin. destruct (Hall f Hin) as (name & Ha & Hf).
    eapply formula_to_image_skip; eassumption. }
  split; [exact Hskip|]. clear Hall.
  induction formulas as [|f rest IH].
  - exists []. split; reflexivity.
  - destruct IH as (names & Hrun & Hidx).
    { intros g Hg. apply Hskip. right. exact Hg. }
    exists (None :: names). split.
    + simpl. unfold bind. rewrite Hskip by (left; reflexivity).
      rewrite Hrun. reflexivity.
    + simpl. exact Hidx.
Qed.

(** C2, as the code has it: the address is the first 20 hexadecimal
    digits of the SHA-1 digest of the UTF-8 bytes of the formula as it is
    given (no percent sign is stripped before hashing); it has 20
    characters and formulas with the same bytes have the same address. *)
Theorem address_of_raw_bytes (f : pystr) (bytes : list N) :
  utf8_encode f = Some bytes ->
  address f = Some (firstn 20 (SHA1.hexdigest bytes))
  /\ List.length (firstn 20 (SHA1.hexdigest bytes)) = 20%nat
  /\ forall g, utf8_encode g = Some bytes -> address g = address f.
Proof.
  intros He. unfold address. rewrite He. split; [reflexivity|]. split.
  - rewrite length_firstn, hexdigest_length. reflexivity.
  - intros g Hg. rewrite Hg. reflexivity.
Qed.

Ltac run_render :=
  cbv [formula_to_image bind isfile write_text call glob_prefix ret files
       started raster_of source_of full_name_of pdflatex_args pdftoppm_args
       with_source pystr directory render_result] in *.

(** C3, as the code has it: a failure to derive the address is caught and
    gives the null result; an exception raised when the source artifact is
    opened or written, or when either external program (the compiler, the
    rasterizer) is started, is not caught and leaves [formula_to_image]. *)
Theorem only_address_failure_is_caught (f : pystr) (w : World) :
  (address f = None -> formula_to_image tc f w = (Return None, w))
  /\ (forall name e,
        address f = Some name ->
        has_file (raster_of name) (files w) = false ->
        open_error tc (source_of name) (files w) = Some e ->
        formula_to_image tc f w = (Raise e, w))
  /\ (forall name e,
        address f = Some name ->
        has_file (raster_of name) (files w) = false ->
        open_error tc (source_of name) (files w) = None ->
        write_error tc (source_of name) (BASIC_SKELETON (strip_percent f)) = None ->
        run tc (pdflatex_args name) (with_source name f (files w)) = Raise e ->
        fst (formula_to_image tc f w) = Raise e)
  /\ (forall name e,
        address f = Some name ->
        has_file (raster_of name) (files w) = false ->
        open_error tc (source_of name) (files w) = None ->
        write_error tc (source_of name) (BASIC_SKELETON (strip_percent f)) = Some e ->
        fst (formula_to_image tc f w) = Raise e)
  /\ (forall name e d1,
        address f = Some name ->
        has_file (raster_of name) (files w) = false ->
        open_error tc (source_of name) (files w) = None ->
        write_error tc (source_of name) (BASIC_SKELETON (strip_percent f)) = None ->
        run tc (pdflatex_args name) (with_source name f (files w))
        = Return (0%Z, d1) ->
        run tc (pdftoppm_args name) d1 = Raise e ->
        fst (formula_to_image tc f w) = Raise e).
Proof.
  split; [apply formula_to_image_no_address|]. split; [|split; [|split]].
  - intros name e Ha Hf Ho. destruct w as [d log]. run_render.
    rewrite Ha, Hf, Ho. reflexivity.
  - intros name e Ha Hf Ho Hw Hr. destruct w as [d log]. run_render.
    rewrite Ha, Hf, Ho, Hw. run_render. rewrite Hr. reflexivity.
  - intros name e Ha Hf Ho Hw. destruct w as [d log]. run_render.
    rewrite Ha, Hf, Ho, Hw. reflexivity.
  - intros name e d1 Ha Hf Ho Hw Hr1 Hr2. destruct w as [d log]. run_render.
    rewrite Ha, Hf, Ho, Hw. run_render. rewrite Hr1. run_render.
    rewrite Z.eqb_refl. cbv [negb]. rewrite Hr2. reflexivity.
Qed.

(** C10: when both programs exit with status 0 and at most one name
    matches the output pattern, the result is [[address_basic, "basic"]];
    the directory is not asked whether a raster exists. *)
Theorem success_without_raster_check
    (f name : pystr) (w : World) (d1 d2 : directory) :
  address f = Some name ->
  has_file (raster_of name) (files w) = false ->
  open_error tc (source_of name) (files w) = None ->
  write_error tc (source_of name) (BASIC_SKELETON (strip_percent f)) = None ->
  run tc (pdflatex_args name) (with_source name f (files w)) = Return (0%Z, d1) ->
  run tc (pdftoppm_args name) d1 = Return (0%Z, d2) ->
  (List.length (List.filter (startswith (full_name_of name ++ py "-"))
                            (List.map fst d2)) <= 1)%nat ->
  formula_to_image tc f w
  = (Return (Some [[full_name_of name; py "basic"]]),
     mkWorld d2 ((started w ++ [pdflatex_args name]) ++ [pdftoppm_args name])).
Proof.
  intros Ha Hf Ho Hw Hr1 Hr2 Hglob. destruct w as [d log]. run_render.
  rewrite Ha, Hf, Ho, Hw. run_render. rewrite Hr1. run_render.
  cbv [Z.eqb negb]. rewrite Hr2. run_render. cbv [Z.eqb negb].
  apply Nat.ltb_ge in Hglob. rewrite Hglob. reflexivity.
Qed.

(** *** What [main] hands to the index builder *)

(** A render result of [formula_to_image] is one image with the variant
    "basic". *)
Lemma formula_to_image_shape (f : pystr) (w w' : World) (r : render_result) :
  formula_to_image tc f w = (Return (Some r), w') ->
  exists name, r = [[full_name_of name; py "basic"]].
Proof.
  unfold formula_to_image.
  destruct (address f) as [name|]; [|discriminate].
  intros H. exists name. revert H.
  cbv [bind isfile write_text call glob_prefix ret full_name_of].
  repeat match goal with
         | |- context [match ?x with _ => _ end] => destruct x eqn:?
         end;
    try discriminate; intros [= <- <-]; reflexivity.
Qed.

Lemma render_all_shape (formulas : list pystr) (w w' : World)
    (names : list (option render_result)) :
  render_all tc formulas w = (Return names, w') ->
  List.length names = List.length formulas
  /\ Forall (fun result => forall r, result = Some r -> well_formed r) names.
Proof.
  revert w names. induction formulas as [|f rest IH]; intros w names; simpl.
  - intros [= <- <-]. split; [reflexivity|constructor].
  - unfold bind at 1.
    destruct (formula_to_image tc f w) as [[result|e] w1] eqn:Hf; [|discriminate].
    unfold bind at 1.
    destruct (render_all tc rest w1) as [[names'|e] w2] eqn:Hr; [|discriminate].
    intros [= <- <-]. destruct (IH _ _ Hr) as [Hlen Hall].
    split; [simpl; congruence|]. constructor; [|exact Hall].
    intros r ->. apply formula_to_image_shape in Hf as (name & ->).
    split; [discriminate|]. repeat constructor. eauto.
Qed.

Lemma split_on_fields (c : N) (s : pystr) :
  Forall (fun x => ~ In c x) (split_on c s).
Proof.
  induction s as [|x s IH]; simpl.
  - constructor; [intros []|constructor].
  - destruct (N.eqb_spec x c) as [->|Hne].
    + constructor; [intros []|exact IH].
    + destruct (split_on c s) as [|fld flds]; inversion IH; subst.
      * repeat constructor. intros [H|[]]. congruence.
      * constructor; [|assumption]. intros [H|H]; [congruence|auto].
Qed.

(** The pairs of [main] meet what the index properties assume: the
    formulas are lines of the input and every render result is well
    formed. *)
Lemma main_pairs (shuffle : list pystr -> list pystr) (content : pystr)
    (w w' : World) (names : list (option render_result)) :
  (forall l, Permutation (shuffle l) l) ->
  let formulas := firstn MAX_IMAGES (shuffle (split_on 10 content)) in
  render_all tc formulas w = (Return names, w') ->
  forall f r, In (f, Some r) (combine formulas names) ->
              well_formed r /\ ~ In 10 f.
Proof.
  intros Hshuffle formulas Hrun f r Hin.
  apply render_all_shape in Hrun as [_ Hall]. split.
  - apply in_combine_r in Hin. rewrite List.Forall_forall in Hall.
    apply (Hall _ Hin). reflexivity.
  - apply in_combine_l in Hin. subst formulas.
    assert (Hf : In f (split_on 10 content)).
    { eapply Permutation_in; [apply Hshuffle|].
      rewrite <- (firstn_skipn MAX_IMAGES (shuffle (split_on 10 content))).
      apply in_or_app. left. exact Hin. }
    pose proof (split_on_fields 10 content) as Hclean.
    rewrite List.Forall_forall in Hclean. apply Hclean. exact Hf.
Qed.

(** The artifacts of [main] are those of the index builder on the pairs of
    formulas and render results. *)
Lemma main_artifacts (shuffle : list pystr -> list pystr) (content : pystr)
    (w w' : World) (names : list (option render_result)) :
  let formulas := firstn MAX_IMAGES (shuffle (split_on 10 content)) in
  render_all tc formulas w = (Return names, w') ->
  let st := build_index (combine formulas names) in
  fst (main tc shuffle content w)
  = Return (join newline (new_formulas st), join newline (new_dataset_lines st)).
Proof.
  intros formulas Hrun st. unfold main. fold formulas.
  unfold bind at 1. rewrite Hrun. reflexivity.
Qed.

End RenderStep.

Section RenderScenarios.
Import Formula2Image IndexFacts Scenarios.

Lemma existing_raster_skipped_as_null_witness :
  formula_to_image quiet (py "x") rendered_x = (Return None, rendered_x).
Proof.
  apply (existing_raster_skipped_as_null quiet rendered_x [py "x"]).
  - intros f [<-|[]]. exists (py "11f6ad8ec52a2984abaa").
    split; vm_compute; reflexivity.
  - left. reflexivity.
Defined.

(** The result of a skipped formula is not a render result. *)
Lemma existing_raster_not_successful :
  ~ (forall (tc : Toolchain) (f name : pystr) (w : World),
        address f = Some name ->
        has_file (raster_of name) (files w) = true ->
        exists r w', formula_to_image tc f w = (Return (Some r), w')).
Proof.
  intros H.
  destruct (H quiet (py "x") (py "11f6ad8ec52a2984abaa") rendered_x)
    as (r & w' & Heq).
  - vm_compute. reflexivity.
  - vm_compute. reflexivity.
  - vm_compute in Heq. discriminate Heq.
Qed.

Lemma address_of_raw_bytes_witness :
  address (py "%x") = Some (py "f7d71ad6a293c739fdb3").
Proof.
  destruct (address_of_raw_bytes (py "%x") (py "%x")) as [Ha _].
  - vm_compute. reflexivity.
  - rewrite Ha. vm_compute. reflexivity.
Defined.

(** C2 as stated fails: a leading percent sign changes the address. *)
Lemma address_not_canonical :
  ~ (forall f : pystr, address (37 :: f) = address f).
Proof.
  intros H. specialize (H (py "x")). vm_compute in H. discriminate H.
Qed.

Lemma only_address_failure_is_caught_witness :
  formula_to_image quiet [55296] empty_world = (Return None, empty_world)
  /\ formula_to_image read_only (py "x") empty_world = (Raise OSError, empty_world)
  /\ fst (formula_to_image no_programs (py "x") empty_world) = Raise OSError
  /\ fst (formula_to_image full_disk (py "x") empty_world) = Raise OSError
  /\ fst (formula_to_image no_rasterizer (py "x") empty_world) = Raise OSError.
Proof.
  split; [|split; [|split; [|split]]].
  - apply (only_address_failure_is_caught quiet [55296] empty_world).
    vm_compute. reflexivity.
  - apply (only_address_failure_is_caught read_only (py "x") empty_world)
      with (name := py "11f6ad8ec52a2984abaa"); vm_compute; reflexivity.
  - destruct (only_address_failure_is_caught no_programs (py "x") empty_world)
      as (_ & _ & Hstart & _).
    apply (Hstart (py "11f6ad8ec52a2984abaa")); vm_compute; reflexivity.
  - destruct (only_address_failure_is_caught full_disk (py "x") empty_world)
      as (_ & _ & _ & Hwrite & _).
    apply (Hwrite (py "11f6ad8ec52a2984abaa")); vm_compute; reflexivity.
  - destruct (only_address_failure_is_caught no_rasterizer (py "x") empty_world)
      as (_ & _ & _ & _ & Hraster).
    apply (Hraster (py "11f6ad8ec52a2984abaa") OSError
             ((py "11f6ad8ec52a2984abaa_basic.pdf", py "%PDF")
              :: with_source (py "11f6ad8ec52a2984abaa") (py "x") []));
      vm_compute; reflexivity.
Defined.

(** C3 as stated fails: an exception can leave the function. *)
Lemma worker_exception_propagates :
  ~ (forall (tc : Toolchain) (f : pystr) (w : World),
        exists r w', formula_to_image tc f w = (Return r, w')).
Proof.
  intros H. destruct (H read_only (py "x") empty_world) as (r & w' & Heq).
  vm_compute in Heq. discriminate Heq.
Qed.

Lemma success_without_raster_check_witness :
  fst (formula_to_image quiet (py "x") empty_world)
  = Return (Some [[py "11f6ad8ec52a2984abaa_basic"; py "basic"]])
  /\ List.filter (endswith (py ".png"))
                 (List.map fst (files (snd (formula_to_image quiet (py "x") empty_world))))
     = [].
Proof.
  split.
  - rewrite (success_without_raster_check quiet (py "x")
               (py "11f6ad8ec52a2984abaa") empty_world
               (with_source (py "11f6ad8ec52a2984abaa") (py "x") [])
               (with_source (py "11f6ad8ec52a2984abaa") (py "x") []));
      try (vm_compute; reflexivity).
    vm_compute. lia.
  - vm_compute. reflexivity.
Defined.

End RenderScenarios.

(** ** The outcomes of one render step *)

Section RenderOutcomes.
Import Formula2Image IndexFacts Scenarios.

Variable tc : Toolchain.

Lemma without_forall (P : pystr -> bool) (d : directory) :
  Forall (fun e => P (fst e) = false) (without P d).
Proof.
  unfold without. apply List.Forall_forall. intros e He.
  apply List.filter_In in He as [_ He]. apply negb_true_iff. exact He.
Qed.

Lemma without_incl (P : pystr -> bool) (d : directory) (e : pystr * pystr) :
  In e (without P d) -> In e d.
Proof. unfold without. intros He. apply List.filter_In in He. tauto. Qed.


(** The loop that deletes the matches of the glob pattern. *)
Lemma for_each_rm (l : list pystr) (w : World) :
  exists d,
    for_each l rm_rf_prefix w = (Return tt, mkWorld d (started w))
    /\ (forall e, In e d -> In e (files w))
    /\ (forall e p, In e d -> In p l -> startswith p (fst e) = false).
Proof.
  revert w. induction l as [|p l IH]; intros w.
  - exists (files w). destruct w. simpl. split; [reflexivity|]. split; tauto.
  - simpl. unfold bind, rm_rf_prefix at 1.
    destruct (IH (mkWorld (without (startswith p) (files w)) (started w)))
      as (d & Hrun & Hin & Hno).
    exists d. split; [rewrite Hrun; reflexivity|]. simpl in Hin. split.
    + intros e He. eapply without_incl. apply Hin. exact He.
    + intros e q He [<-|Hq]; [|eapply Hno; eassumption].
      pose proof (without_forall (startswith p) (files w)) as Hall.
      rewrite List.Forall_forall in Hall. apply Hall, Hin, He.
Qed.

Ltac run_step :=
  cbv [formula_to_image bind isfile write_text call glob_prefix ret files
       started raster_of source_of full_name_of pdflatex_args pdftoppm_args
       with_source pystr directory render_result rm_rf_prefix] in *.

(** One more test of [formula_to_image] in a hypothesis about its run. *)
Ltac step_in H :=
  cbv beta iota zeta delta
      [bind isfile write_text call glob_prefix ret files started rm_rf_prefix]
    in H;
  match type of H with
  | context [open_error ?t ?p ?d] => destruct (open_error t p d) eqn:?
  | context [write_error ?t ?p ?d] => destruct (write_error t p d) eqn:?
  | context [run ?t ?a ?d] => destruct (run t a d) as [[? ?]|?] eqn:?
  | context [negb ?b] => destruct b eqn:?; cbn [negb] in H
  | context [Nat.ltb ?a ?b] => destruct (Nat.ltb a b) eqn:?
  | context [for_each ?l ?b ?w] => destruct (for_each l b w) as [[?|?] ?]
  end;
  try discriminate.

(** X1: when the compiler exits with a status other than 0, the result is
    null, the rasterizer is not started, and no entry whose name starts with
    the full name is left in the directory. *)
Theorem compile_failure_cleans_up
    (f name : pystr) (w : World) (code : Z) (d1 : directory) :
  address f = Some name ->
  has_file (raster_of name) (files w) = false ->
  open_error tc (source_of name) (files w) = None ->
  write_error tc (source_of name) (BASIC_SKELETON (strip_percent f)) = None ->
  run tc (pdflatex_args name) (with_source name f (files w)) = Return (code, d1) ->
  code <> 0%Z ->
  formula_to_image tc f w
  = (Return None,
     mkWorld (without (startswith (full_name_of name)) d1)
             (started w ++ [pdflatex_args name]))
  /\ Forall (fun e => startswith (full_name_of name) (fst e) = false)
            (files (snd (formula_to_image tc f w))).
Proof.
  intros Ha Hf Ho Hw Hr Hcode.
  assert (Heq : formula_to_image tc f w
                = (Return None,
                   mkWorld (without (startswith (full_name_of name)) d1)
                           (started w ++ [pdflatex_args name]))).
  { destruct w as [d log]. apply Z.eqb_neq in Hcode. run_step.
    rewrite Ha, Hf, Ho, Hw. run_step. rewrite Hr. run_step.
    rewrite Hcode. reflexivity. }
  split; [exact Heq|]. rewrite Heq. apply without_forall.
Qed.

(** X2: when the rasterizer exits with a status other than 0, the result
    is null, both programs were started once, and no entry whose name
    starts with the full name is left (the source and the compiled document
    included). *)
Theorem raster_failure_cleans_up
    (f name : pystr) (w : World) (code : Z) (d1 d2 : directory) :
  address f = Some name ->
  has_file (raster_of name) (files w) = false ->
  open_error tc (source_of name) (files w) = None ->
  write_error tc (source_of name) (BASIC_SKELETON (strip_percent f)) = None ->
  run tc (pdflatex_args name) (with_source name f (files w)) = Return (0%Z, d1) ->
  run tc (pdftoppm_args name) d1 = Return (code, d2) ->
  code <> 0%Z ->
  formula_to_image tc f w
  = (Return None,
     mkWorld (without (startswith (full_name_of name)) d2)
             ((started w ++ [pdflatex_args name]) ++ [pdftoppm_args name]))
  /\ Forall (fun e => startswith (full_name_of name) (fst e) = false)
            (files (snd (formula_to_image tc f w))).
Proof.
  intros Ha Hf Ho Hw Hr1 Hr2 Hcode.
  assert (Heq : formula_to_image tc f w
                = (Return None,
                   mkWorld (without (startswith (full_name_of name)) d2)
                           ((started w ++ [pdflatex_args name])
                            ++ [pdftoppm_args name]))).
  { destruct w as [d log]. apply Z.eqb_neq in Hcode. run_step.
    rewrite Ha, Hf, Ho, Hw. run_step. rewrite Hr1. run_step.
    rewrite Z.eqb_refl. cbv [negb]. rewrite Hr2. run_step.
    rewrite Hcode. reflexivity. }
  split; [exact Heq|]. rewrite Heq. apply without_forall.
Qed.


Lemma formula_to_image_result (f : pystr) (w w' : World) (r : render_result) :
  formula_to_image tc f w = (Return (Some r), w') ->
  exists name, address f = Some name /\ r = [[full_name_of name; py "basic"]].
Proof.
  unfold formula_to_image.
  destruct (address f) as [name|]; [|discriminate].
  intros H. exists name. split; [reflexivity|].
  destruct w as [d log]. unfold full_name_of.
  cbv [bind isfile ret files] in H.
  destruct (has_file (name ++ py ".png") d); [discriminate|].
  repeat step_in H.
  injection H as <- _. reflexivity.
Qed.

(** X4: a render result is always the one pair of the full name of the
    address and "basic", and it is returned only after the compiler and
    then the rasterizer were started, once each, on a formula whose raster
    was not in the directory. *)
Theorem success_means_both_programs_ran
    (f : pystr) (w w' : World) (r : render_result) :
  formula_to_image tc f w = (Return (Some r), w') ->
  exists name,
    address f = Some name
    /\ r = [[full_name_of name; py "basic"]]
    /\ has_file (raster_of name) (files w) = false
    /\ started w' = started w ++ [pdflatex_args name; pdftoppm_args name].
Proof.
  unfold formula_to_image.
  destruct (address f) as [name|]; [|discriminate].
  intros H. exists name. split; [reflexivity|].
  destruct w as [d log].
  unfold raster_of, full_name_of, pdflatex_args, pdftoppm_args, source_of.
  cbn [files started].
  cbv [bind isfile ret files] in H.
  destruct (has_file (name ++ py ".png") d) eqn:Hf; [discriminate|].
  repeat step_in H.
  injection H as <- <-. cbn [started]. rewrite <- app_assoc. auto.
Qed.

(** One more test of [formula_to_image], every branch kept. *)
Ltac branch_in H :=
  cbv beta iota zeta delta
      [bind isfile write_text call glob_prefix ret files started] in H;
  match type of H with
  | context [open_error ?t ?p ?d] => destruct (open_error t p d) eqn:?
  | context [write_error ?t ?p ?d] => destruct (write_error t p d) eqn:?
  | context [run ?t ?a ?d] => destruct (run t a d) as [[? ?]|?] eqn:?
  | context [negb ?b] => destruct b eqn:?; cbn [negb] in H
  | context [Nat.ltb ?a ?b] => destruct (Nat.ltb a b) eqn:?
  | context [for_each ?l rm_rf_prefix ?w] =>
      let d := fresh "d" in
      let Hrun := fresh "Hrun" in
      destruct (for_each_rm l w) as (d & Hrun & _ & _);
      rewrite Hrun in H; clear Hrun
  end.

(** X13: whatever happens, [formula_to_image] only adds to the log of
    started programs, and what it adds is nothing, or the compiler, or the
    compiler followed by the rasterizer: the rasterizer is never started
    first or alone, and no program is started twice. *)
Theorem at_most_two_programs
    (f : pystr) (w w' : World) (o : outcome (option render_result)) :
  formula_to_image tc f w = (o, w') ->
  exists l,
    started w' = started w ++ l
    /\ (l = []
        \/ exists name,
             address f = Some name
             /\ (l = [pdflatex_args name]
                 \/ l = [pdflatex_args name; pdftoppm_args name])).
Proof.
  unfold formula_to_image. intros H.
  destruct (address f) as [name|];
    [|injection H as <- <-; exists []; rewrite app_nil_r; auto].
  destruct w as [d log].
  unfold pdflatex_args, pdftoppm_args, source_of, full_name_of.
  cbn [files started].
  cbv [bind isfile ret files] in H.
  destruct (has_file (name ++ py ".png") d);
    [injection H as <- <-; exists []; rewrite app_nil_r; auto|].
  repeat branch_in H.
  all: cbv [rm_rf_prefix files started] in H; injection H as <- <-.
  all: cbn [started].
  all: first
         [ exists []; split; [rewrite app_nil_r; reflexivity|left; reflexivity]
         | eexists [_]; split; [reflexivity|]; right; exists name;
           split; [reflexivity|left; reflexivity]
         | eexists [_; _]; split; [rewrite <- app_assoc; reflexivity|];
           right; exists name; split; [reflexivity|right; reflexivity] ].
Qed.

Lemma hex_digit_is_hex (v : N) : v <= 15 -> is_hex (SHA1.hex_digit v).
Proof.
  intros Hv. unfold is_hex, SHA1.hex_digit.
  destruct (N.ltb_spec v 10); lia.
Qed.

Lemma hex_word_is_hex (x : N) : Forall is_hex (SHA1.hex_word x).
Proof.
  unfold SHA1.hex_word. apply List.Forall_forall. intros c Hc.
  apply in_map_iff in Hc as (i & <- & _).
  apply hex_digit_is_hex. apply N.land_le_r.
Qed.

(** X5: the address of a formula is made of 20 lowercase hexadecimal
    digits, whatever the formula. *)
Theorem address_is_hexadecimal (f name : pystr) :
  address f = Some name ->
  List.length name = 20%nat /\ Forall is_hex name.
Proof.
  intros Ha. split; [eapply address_length; exact Ha|].
  unfold address in Ha. destruct (utf8_encode f) as [bytes|]; [|discriminate].
  injection Ha as <-. apply Forall_take. unfold SHA1.hexdigest.
  destruct (SHA1.digest bytes) as [[[[h0 h1] h2] h3] h4].
  repeat (apply Forall_app; split); apply hex_word_is_hex.
Qed.

End RenderOutcomes.

Section RenderOutcomeScenarios.
Import Formula2Image IndexFacts Scenarios.

(** C1 at the raster a run writes. The first run of the formula x leaves
    the raster under the full name, address and "_basic"; the test of line
    74 looks for the address alone, so the second run is not skipped: the
    compiler and the rasterizer are started again. Where the file the test
    looks for does exist, the result is null, not a render result. *)
Theorem raster_check_misses_rendered_file :
  let first := formula_to_image one_page (py "x") empty_world in
  let second := formula_to_image one_page (py "x") (snd first) in
  fst first = Return (Some [[py "11f6ad8ec52a2984abaa_basic"; py "basic"]])
  /\ has_file (py "11f6ad8ec52a2984abaa_basic.png") (files (snd first)) = true
  /\ started (snd first)
     = [pdflatex_args (py "11f6ad8ec52a2984abaa");
        pdftoppm_args (py "11f6ad8ec52a2984abaa")]
  /\ fst second = Return (Some [[py "11f6ad8ec52a2984abaa_basic"; py "basic"]])
  /\ started (snd second)
     = started (snd first)
       ++ [pdflatex_args (py "11f6ad8ec52a2984abaa");
           pdftoppm_args (py "11f6ad8ec52a2984abaa")]
  /\ formula_to_image one_page (py "x") rendered_x = (Return None, rendered_x).
Proof. repeat split; vm_compute; reflexivity. Qed.

Lemma compile_failure_cleans_up_witness :
  formula_to_image failing_compiler (py "x") empty_world
  = (Return None, mkWorld [] [pdflatex_args (py "11f6ad8ec52a2984abaa")]).
Proof.
  destruct (compile_failure_cleans_up failing_compiler (py "x")
              (py "11f6ad8ec52a2984abaa") empty_world 1%Z
              ((py "11f6ad8ec52a2984abaa_basic.log", py "! Missing $")
               :: with_source (py "11f6ad8ec52a2984abaa") (py "x") []))
    as [Heq _].
  1-5: vm_compute; reflexivity.
  - discriminate.
  - rewrite Heq. vm_compute. reflexivity.
Defined.

Lemma raster_failure_cleans_up_witness :
  formula_to_image failing_rasterizer (py "x") empty_world
  = (Return None,
     mkWorld [] [pdflatex_args (py "11f6ad8ec52a2984abaa");
                 pdftoppm_args (py "11f6ad8ec52a2984abaa")]).
Proof.
  destruct (raster_failure_cleans_up failing_rasterizer (py "x")
              (py "11f6ad8ec52a2984abaa") empty_world 1%Z
              ((py "11f6ad8ec52a2984abaa_basic.pdf", py "%PDF")
               :: with_source (py "11f6ad8ec52a2984abaa") (py "x") [])
              ((py "11f6ad8ec52a2984abaa_basic.pdf", py "%PDF")
               :: with_source (py "11f6ad8ec52a2984abaa") (py "x") []))
    as [Heq _].
  1-6: vm_compute; reflexivity.
  - discriminate.
  - rewrite Heq. vm_compute. reflexivity.
Defined.


Lemma success_means_both_programs_ran_witness :
  exists name,
    address (py "x") = Some name
    /\ [[py "11f6ad8ec52a2984abaa_basic"; py "basic"]]
       = [[full_name_of name; py "basic"]]
    /\ has_file (raster_of name) (files empty_world) = false
    /\ started (snd (formula_to_image one_page (py "x") empty_world))
       = started empty_world ++ [pdflatex_args name; pdftoppm_args name].
Proof.
  apply (success_means_both_programs_ran one_page (py "x") empty_world
           (snd (formula_to_image one_page (py "x") empty_world))
           [[py "11f6ad8ec52a2984abaa_basic"; py "basic"]]).
  vm_compute. reflexivity.
Defined.

Lemma at_most_two_programs_witness :
  exists l,
    started (snd (formula_to_image failing_compiler (py "x") empty_world))
    = started empty_world ++ l
    /\ (l = []
        \/ exists name,
             address (py "x") = Some name
             /\ (l = [pdflatex_args name]
                 \/ l = [pdflatex_args name; pdftoppm_args name])).
Proof.
  apply (at_most_two_programs failing_compiler (py "x") empty_world
           (snd (formula_to_image failing_compiler (py "x") empty_world))
           (fst (formula_to_image failing_compiler (py "x") empty_world))).
  vm_compute. reflexivity.
Defined.

Lemma address_is_hexadecimal_witness :
  List.length (py "f7d71ad6a293c739fdb3") = 20%nat
  /\ Forall is_hex (py "f7d71ad6a293c739fdb3").
Proof.
  apply (address_is_hexadecimal (py "%x") (py "f7d71ad6a293c739fdb3")).
  vm_compute. reflexivity.
Defined.

End RenderOutcomeScenarios.

(** ** The validator of formula2image.py *)

Section Validator.
Import Formula2Image IndexFacts Scenarios.

(** The id the validator compares is the first field of the last row
    that is not empty. *)
Lemma check_lines_last (listing : list pystr) (st : pystr * nat)
    (lines : list pystr) (line : pystr) :
  check_lines listing st (lines ++ [line])
  = obind (check_lines listing st lines)
          (fun st' => check_line listing st' line).
Proof.
  revert st. induction lines as [|l lines IH]; intros st; simpl.
  - destruct (check_line listing st line); reflexivity.
  - destruct (check_line listing st l) as [st'|e]; simpl; [apply IH|reflexivity].
Qed.

Lemma check_line_id (listing : list pystr) (st st' : pystr * nat)
    (line : pystr) :
  line <> [] -> check_line listing st line = Return st' ->
  fst st' = nth 0 (split_on 32 line) [].
Proof.
  intros Hne. unfold check_line, pystr_eqb.
  rewrite bool_decide_eq_false_2 by exact Hne.
  destruct (nth_error (split_on 32 line) 1); [|discriminate].
  destruct (negb _); intros [= <-]; reflexivity.
Qed.

(** On an index sorted by id the validator reports as the specification
    expects. *)
Example validator_all_present :
  check_validity sorted_index five_formulas five_images
  = Return (mkReport None 0).
Proof. vm_compute. reflexivity. Qed.

Example validator_one_missing :
  check_validity sorted_index five_formulas
                 [py "a.png"; py "b.png"; py "d.png"; py "e.png"]
  = Return (mkReport None 1).
Proof. vm_compute. reflexivity. Qed.

Example validator_truncated_list :
  check_validity sorted_index four_formulas five_images
  = Return (mkReport (Some (4%Z, 4%nat)) 0).
Proof. vm_compute. reflexivity. Qed.

Example validator_row_without_image :
  check_validity (py "7") five_formulas five_images = Raise IndexError.
Proof. vm_compute. reflexivity. Qed.

(** C4 at an index that is not sorted: the largest id is 1 and the
    formula list has 2 lines, all images are present, yet the validator
    compares the id of the last row, 0, and reports a length mismatch. *)
Theorem check_validity_compares_last_id :
  max_id (split_on 10 unsorted_index) = 1%Z
  /\ List.length (split_on 10 two_formulas) = 2%nat
  /\ check_validity unsorted_index two_formulas both_images
     = Return (mkReport (Some (0%Z, 2%nat)) 0).
Proof. repeat split; vm_compute; reflexivity. Qed.

End Validator.

(** ** The whole run of formula2image.py *)

Section WholeRun.
Import Formula2Image IndexFacts Scenarios.

Variable tc : Toolchain.

Lemma in_without (P : pystr -> bool) (d : directory) (e : pystr * pystr) :
  In e (without P d) <-> In e d /\ P (fst e) = false.
Proof.
  unfold without. rewrite List.filter_In, negb_true_iff. reflexivity.
Qed.

Lemma formula_to_image_open_error (f name : pystr) (w : World) (e : exn) :
  address f = Some name ->
  has_file (raster_of name) (files w) = false ->
  open_error tc (source_of name) (files w) = Some e ->
  formula_to_image tc f w = (Raise e, w).
Proof.
  intros Ha Hf Ho. destruct w as [d log].
  cbv [formula_to_image bind isfile write_text ret files started raster_of
       source_of full_name_of] in *.
  rewrite Ha, Hf, Ho. reflexivity.
Qed.

Lemma MAX_IMAGES_positive : exists m, MAX_IMAGES = S m.
Proof.
  unfold MAX_IMAGES. exists (N.to_nat (300 * 1000 - 1)). lia.
Qed.

(** X11: one exception of a worker ends the run. When the directory
    cannot be written to, and the formulas have an address and no raster,
    [main] raises at the first formula: the directory and the log of started
    programs are as before, and no artifact is written. *)
Theorem unwritable_directory_ends_run
    (shuffle : list pystr -> list pystr) (content : pystr) (w : World)
    (e : exn) :
  (forall l, Permutation (shuffle l) l) ->
  (forall path d, open_error tc path d = Some e) ->
  (forall f, In f (split_on 10 content) ->
             exists name, address f = Some name
                          /\ has_file (raster_of name) (files w) = false) ->
  main tc shuffle content w = (Raise e, w).
Proof.
  intros Hshuffle Hopen Hall. unfold main.
  destruct MAX_IMAGES_positive as [m ->].
  destruct (shuffle (split_on 10 content)) as [|f rest] eqn:Hs.
  - exfalso. apply (split_on_not_nil 10 content).
    apply Permutation_nil. rewrite <- Hs. apply Hshuffle.
  - assert (Hf : In f (split_on 10 content)).
    { eapply Permutation_in; [apply Hshuffle|]. rewrite Hs. left. reflexivity. }
    destruct (Hall f Hf) as (name & Ha & Hno).
    cbn [firstn render_all]. unfold bind at 1. unfold bind at 1.
    rewrite (formula_to_image_open_error f name w e Ha Hno (Hopen _ _)).
    reflexivity.
Qed.

(** X12: the run is bounded. [render_all] gives one result per formula,
    and the number of ids given out, which is the number of lines of the
    formula list, is at most MAX_IMAGES and at most the number of lines of
    the input. *)
Theorem run_is_bounded
    (shuffle : list pystr -> list pystr) (content : pystr) (w w' : World)
    (names : list (option render_result)) :
  (forall l, Permutation (shuffle l) l) ->
  let formulas := firstn MAX_IMAGES (shuffle (split_on 10 content)) in
  render_all tc formulas w = (Return names, w') ->
  let st := build_index (combine formulas names) in
  List.length names = List.length formulas
  /\ List.length (new_formulas st) = ctr st
  /\ (ctr st <= MAX_IMAGES)%nat
  /\ (ctr st <= List.length (split_on 10 content))%nat.
Proof.
  intros Hshuffle formulas Hrun st.
  apply render_all_shape in Hrun as [Hlen _].
  split; [exact Hlen|]. subst st. rewrite build_index_survivors. cbn [ctr new_formulas].
  rewrite length_map. split; [reflexivity|].
  assert (Hsv : (List.length (survivors (combine formulas names))
                 <= List.length formulas)%nat).
  { rewrite length_survivors. unfold rendered.
    etransitivity; [apply List.filter_length_le|].
    rewrite length_combine. lia. }
  assert (Hf : (List.length formulas <= MAX_IMAGES)%nat
               /\ (List.length formulas <= List.length (split_on 10 content))%nat).
  { subst formulas. rewrite length_firstn.
    rewrite (Permutation_length (Hshuffle (split_on 10 content))). lia. }
  lia.
Qed.

End WholeRun.

Section WholeRunScenarios.
Import Formula2Image IndexFacts Scenarios.

Lemma unwritable_directory_ends_run_witness :
  main read_only (fun l => l) (join newline [py "x"; py "y"]) empty_world
  = (Raise OSError, empty_world).
Proof.
  apply (unwritable_directory_ends_run read_only (fun l => l)).
  - intros l. reflexivity.
  - intros path d. reflexivity.
  - intros f Hf. vm_compute in Hf. destruct Hf as [<-|[<-|[]]].
    + exists (py "11f6ad8ec52a2984abaa"). split; vm_compute; reflexivity.
    + exists (py "95cb0bfd2977c761298d"). split; vm_compute; reflexivity.
Defined.

Lemma run_is_bounded_witness :
  (ctr (build_index (combine [py "x"]
                       [Some [[py "11f6ad8ec52a2984abaa_basic"; py "basic"]]]))
   <= MAX_IMAGES)%nat.
Proof.
  apply (run_is_bounded one_page (fun l => l) (py "x") empty_world
           (mkWorld [(py "11f6ad8ec52a2984abaa_basic.png", []);
                     (py "11f6ad8ec52a2984abaa_basic.pdf", py "%PDF");
                     (py "11f6ad8ec52a2984abaa_basic.tex",
                      BASIC_SKELETON (py "x"))]
                    [pdflatex_args (py "11f6ad8ec52a2984abaa");
                     pdftoppm_args (py "11f6ad8ec52a2984abaa")])
           [Some [[py "11f6ad8ec52a2984abaa_basic"; py "basic"]]]).
  - intros l. reflexivity.
  - vm_compute. reflexivity.
Defined.

End WholeRunScenarios.

(** ** The index and the validator together *)

Section IndexAndValidator.
Import Formula2Image IndexFacts Scenarios.

Lemma rows_line_ids (id : nat) (sv : list (pystr * render_result)) :
  List.map line_id (rows id sv)
  = List.map (fun i => Return (Z.of_nat i)) (row_ids id sv).
Proof.
  revert id. induction sv as [|[f r] sv IH]; intros id; simpl; [reflexivity|].
  rewrite !List.map_app, IH. f_equal.
  induction r as [|rs r IHr]; simpl; [reflexivity|].
  rewrite line_id_dataset_line, IHr. reflexivity.
Qed.

Lemma row_ids_sorted (id : nat) (sv : list (pystr * render_result)) :
  StronglySorted le (row_ids id sv) /\ Forall (le id) (row_ids id sv).
Proof.
  revert id. induction sv as [|[f r] sv IH]; intros id; simpl.
  - split; constructor.
  - destruct (IH (S id)) as [Hs Hge].
    assert (Hge' : Forall (le id) (row_ids (S id) sv)).
    { eapply Forall_impl; [exact Hge|]. intros x Hx. simpl in Hx. lia. }
    induction (List.length r) as [|n IHn]; simpl; [split; assumption|].
    destruct IHn as [Hs' Hall]. split.
    + constructor; [exact Hs'|exact Hall].
    + constructor; [lia|exact Hall].
Qed.

(** X6: the ids of the index lines never decrease from one line to the
    next, whatever the render results are. *)
Theorem index_ids_non_decreasing
    (zipped : list (pystr * option render_result)) :
  exists ids,
    List.map line_id (new_dataset_lines (build_index zipped))
    = List.map (fun i => Return (Z.of_nat i)) ids
    /\ StronglySorted le ids.
Proof.
  exists (row_ids 0 (survivors zipped)).
  rewrite build_index_survivors. simpl. split.
  - apply rows_line_ids.
  - apply row_ids_sorted.
Qed.

Lemma check_lines_app (listing : list pystr) (st : pystr * nat)
    (a b : list pystr) :
  check_lines listing st (a ++ b)
  = obind (check_lines listing st a) (fun st' => check_lines listing st' b).
Proof.
  revert st. induction a as [|l a IH]; intros st; simpl; [reflexivity|].
  destruct (check_line listing st l) as [st'|e]; simpl; [apply IH|reflexivity].
Qed.

Lemma dataset_line_not_empty (id : nat) (rs : list pystr) :
  dataset_line id rs <> [].
Proof.
  unfold dataset_line. pose proof (str_not_empty id) as Hne.
  destruct (str id); [congruence|discriminate].
Qed.

Lemma str_no_char (id : nat) (c : N) : ~ is_digit c -> ~ In c (str id).
Proof.
  intros Hc Hin. pose proof (str_digits id) as Hd.
  rewrite List.Forall_forall in Hd. apply Hc, Hd, Hin.
Qed.

Lemma check_line_row (listing : list pystr) (st : pystr * nat) (id : nat)
    (image variant : pystr) :
  ~ In 32 image ->
  check_line listing st (dataset_line id [image; variant])
  = Return (str id,
            (snd st + missing_count listing [image])%nat).
Proof.
  intros Himage. unfold check_line, pystr_eqb.
  rewrite bool_decide_eq_false_2 by apply dataset_line_not_empty.
  change (dataset_line id [image; variant])
    with (str id ++ 32 :: image ++ 32 :: variant).
  rewrite split_on_field by (apply str_no_char; unfold is_digit; lia).
  rewrite split_on_field by exact Himage.
  cbn [nth nth_error]. unfold missing_count. cbn [List.filter].
  destruct (negb (in_listing (image ++ py ".png") listing));
    cbn [List.length]; rewrite ?Nat.add_0_r, ?Nat.add_1_r; reflexivity.
Qed.

Lemma missing_count_app (listing a b : list pystr) :
  missing_count listing (a ++ b)
  = (missing_count listing a + missing_count listing b)%nat.
Proof.
  unfold missing_count. rewrite List.filter_app, length_app. reflexivity.
Qed.

Lemma check_lines_block (listing : list pystr) (id : nat) (r : render_result)
    (st : pystr * nat) :
  Forall readable r ->
  check_lines listing st (List.map (dataset_line id) r)
  = Return (match r with [] => fst st | _ => str id end,
            (snd st + missing_count listing
                        (List.map (fun rs => nth 0 rs []) r))%nat).
Proof.
  intros Hr. revert st. induction Hr as [|rs r Hrs Hr IH]; intros st.
  - simpl. unfold missing_count. simpl. rewrite Nat.add_0_r.
    destruct st; reflexivity.
  - destruct Hrs as (image & variant & -> & Hsp & _).
    cbn [List.map check_lines]. rewrite check_line_row by exact Hsp.
    cbn [obind]. rewrite IH. cbn [fst snd nth].
    change (image :: List.map (fun rs => nth 0 rs []) r)
      with ([image] ++ List.map (fun rs => nth 0 rs []) r).
    rewrite (missing_count_app listing [image]).
    f_equal. f_equal; [destruct r; reflexivity|lia].
Qed.

Lemma check_lines_rows (listing : list pystr) (id : nat)
    (sv : list (pystr * render_result)) (st : pystr * nat) :
  (forall f r, In (f, r) sv -> r <> [] /\ Forall readable r) ->
  check_lines listing st (rows id sv)
  = Return (match sv with
            | [] => fst st
            | _ => str (id + List.length sv - 1)
            end,
            (snd st + missing_count listing (row_images sv))%nat).
Proof.
  revert id st. induction sv as [|[f r] sv IH]; intros id st Hsv.
  - simpl. unfold missing_count. simpl. rewrite Nat.add_0_r.
    destruct st; reflexivity.
  - destruct (Hsv f r (or_introl eq_refl)) as [Hne Hr].
    cbn [rows]. rewrite check_lines_app, check_lines_block by exact Hr.
    cbn [obind].
    rewrite IH by (intros g q Hin; apply (Hsv g q); right; exact Hin).
    cbn [fst snd]. unfold row_images. cbn [flat_map snd].
    fold (row_images sv). rewrite missing_count_app. f_equal. f_equal.
    + destruct r as [|rs r']; [congruence|].
      destruct sv as [|p sv']; simpl List.length; f_equal; lia.
    + lia.
Qed.

Lemma rows_no_newline (id : nat) (sv : list (pystr * render_result)) :
  (forall f r, In (f, r) sv -> r <> [] /\ Forall readable r) ->
  Forall (fun line => ~ In 10 line) (rows id sv).
Proof.
  intros Hsv. apply List.Forall_forall. intros line Hin.
  apply in_rows in Hin as (i & f & r & rs & Hnth & Hrs & ->).
  apply nth_error_In in Hnth. destruct (Hsv f r Hnth) as [_ Hr].
  rewrite List.Forall_forall in Hr.
  destruct (Hr rs Hrs) as (image & variant & -> & _ & Hi & Hv).
  change (dataset_line (id + i) [image; variant])
    with (str (id + i) ++ 32 :: image ++ 32 :: variant).
  rewrite in_app_iff. cbn [In]. rewrite in_app_iff. cbn [In].
  intros [H|[H|[H|[H|H]]]]; try (discriminate || tauto).
  revert H. apply str_no_char. unfold is_digit. lia.
Qed.

Lemma built_index_validates_aux
    (zipped : list (pystr * option render_result)) (listing : list pystr) :
  (forall f r, In (f, Some r) zipped ->
               ~ In 10 f /\ r <> [] /\ Forall readable r) ->
  let st := build_index zipped in
  check_validity (join newline (new_dataset_lines st))
                 (join newline (new_formulas st)) listing
  = Return (mkReport None
              (missing_count listing (row_images (survivors zipped)))).
Proof.
  intros Hok st. subst st. rewrite build_index_survivors. simpl.
  assert (Hsv : forall f r, In (f, r) (survivors zipped) ->
                            r <> [] /\ Forall readable r).
  { intros f r Hin. apply in_survivors, Hok in Hin. tauto. }
  assert (Hformulas : persisted (List.map fst (survivors zipped))
                      = match survivors zipped with
                        | [] => [[]]
                        | _ => List.map fst (survivors zipped)
                        end).
  { rewrite persisted_formulas; [destruct (survivors zipped); reflexivity|].
    apply List.Forall_forall. intros f Hin.
    apply in_map_iff in Hin as ([g r] & <- & Hin).
    apply in_survivors, Hok in Hin. tauto. }
  unfold check_validity. fold (persisted (List.map fst (survivors zipped))).
  rewrite Hformulas. clear Hformulas.
  destruct (survivors zipped) as [|[f r] sv] eqn:Hs.
  - reflexivity.
  - rewrite <- Hs in *.
    assert (Hrows : rows 0 (survivors zipped) <> []).
    { rewrite Hs. simpl. destruct (Hsv f r) as [Hne _];
        [rewrite Hs; left; reflexivity|].
      destruct r; [congruence|discriminate]. }
    unfold newline. rewrite split_on_join;
      [|exact Hrows|apply rows_no_newline; exact Hsv].
    rewrite check_lines_rows by exact Hsv. cbn [obind fst snd].
    rewrite Hs at 1. rewrite int_str. cbn [obind].
    rewrite length_map.
    assert (Hlen : (0 < List.length (survivors zipped))%nat)
      by (rewrite Hs; simpl; lia).
    replace (Z.of_nat (0 + List.length (survivors zipped) - 1) + 1
             =? Z.of_nat (List.length (survivors zipped)))%Z with true
      by (symmetry; apply Z.eqb_eq; lia).
    reflexivity.
Qed.

(** X7: the validator accepts what the index builder writes. For render
    results whose image names can be read back from a line, and formulas
    without a newline, [check_validity] on the two artifacts reports no
    length mismatch, and counts exactly the images that have no raster file
    in the listing. *)
Theorem built_index_validates
    (zipped : list (pystr * option render_result)) (listing : list pystr) :
  (forall f r, In (f, Some r) zipped ->
               ~ In 10 f /\ r <> [] /\ Forall readable r) ->
  let st := build_index zipped in
  check_validity (join newline (new_dataset_lines st))
                 (join newline (new_formulas st)) listing
  = Return (mkReport None
              (missing_count listing (row_images (survivors zipped)))).
Proof. apply built_index_validates_aux. Qed.

Lemma split_on_snoc (c : N) (s : pystr) :
  split_on c (s ++ [c]) = split_on c s ++ [[]].
Proof.
  induction s as [|x s IH]; simpl.
  - rewrite N.eqb_refl. reflexivity.
  - rewrite IH. destruct (x =? c); [reflexivity|].
    pose proof (split_on_not_nil c s) as Hne.
    destruct (split_on c s); [congruence|reflexivity].
Qed.

(** X8: a newline at the end of the index file changes nothing in the
    report, while a newline at the end of the formula file counts as one
    more line. *)
Theorem trailing_newline (dataset_file formula_file : pystr)
    (formula_images : list pystr) :
  check_validity (dataset_file ++ newline) formula_file formula_images
  = check_validity dataset_file formula_file formula_images
  /\ List.length (split_on 10 (formula_file ++ newline))
     = S (List.length (split_on 10 formula_file)).
Proof.
  unfold newline. split.
  - unfold check_validity. rewrite split_on_snoc, check_lines_last.
    destruct (check_lines formula_images (py "0", 0%nat)
                (split_on 10 dataset_file)) as [[id m]|e]; reflexivity.
  - rewrite split_on_snoc, length_app. simpl. lia.
Qed.

Lemma check_lines_only_index_error (listing : list pystr) (st : pystr * nat)
    (lines : list pystr) (e : exn) :
  check_lines listing st lines = Raise e -> e = IndexError.
Proof.
  revert st. induction lines as [|l lines IH]; intros st; simpl; [discriminate|].
  destruct (check_line listing st l) as [st'|e'] eqn:Hl; simpl.
  - apply IH.
  - intros [= <-]. unfold check_line in Hl.
    destruct (pystr_eqb l []); [discriminate|].
    destruct (nth_error (split_on 32 l) 1); [|congruence].
    destruct (negb _); discriminate.
Qed.

(** X9: a row of the index that is not empty and holds no space makes the
    validator raise [IndexError], whatever the other rows and the other two
    arguments are: no report is printed. *)
Theorem row_without_image_raises (dataset_file formula_file : pystr)
    (formula_images : list pystr) (line : pystr) :
  In line (split_on 10 dataset_file) -> line <> [] -> ~ In 32 line ->
  check_validity dataset_file formula_file formula_images = Raise IndexError.
Proof.
  intros Hin Hne Hsp. unfold check_validity.
  assert (Hraise : forall st lines,
             In line lines ->
             check_lines formula_images st lines = Raise IndexError).
  { intros st lines. revert st.
    induction lines as [|l lines IH]; intros st Hl; [destruct Hl|].
    simpl. destruct Hl as [->|Hl].
    - unfold check_line, pystr_eqb.
      rewrite bool_decide_eq_false_2 by exact Hne.
      rewrite split_on_whole by exact Hsp. reflexivity.
    - destruct (check_line formula_images st l) as [st'|e] eqn:Hc; simpl.
      + apply IH. exact Hl.
      + f_equal.
        apply (check_lines_only_index_error formula_images st [l] e).
        simpl. rewrite Hc. reflexivity. }
  rewrite Hraise by exact Hin. reflexivity.
Qed.

Lemma built_index_validates_witness :
  check_validity
    (join newline (new_dataset_lines (build_index sample_zipped)))
    (join newline (new_formulas (build_index sample_zipped)))
    [py "0f3a_basic.png"]
  = Return (mkReport None 1).
Proof.
  rewrite (built_index_validates sample_zipped [py "0f3a_basic.png"]).
  - vm_compute. reflexivity.
  - intros f r [H|[H|[H|[]]]]; inversion H; subst.
    all: split; [vm_compute; intuition discriminate|].
    all: split; [discriminate|].
    all: constructor; [|constructor].
    all: eexists _, _; split; [reflexivity|].
    all: vm_compute; intuition discriminate.
Defined.

Lemma row_without_image_raises_witness :
  check_validity (join newline [py "0 a basic"; py "7"]) five_formulas
                 five_images
  = Raise IndexError.
Proof.
  apply (row_without_image_raises _ _ _ (py "7")).
  - vm_compute. right. left. reflexivity.
  - discriminate.
  - vm_compute. intuition discriminate.
Defined.

End IndexAndValidator.

(** ** A run followed by the validator *)

Section RunAndValidate.
Import Formula2Image IndexFacts Scenarios.

Variable tc : Toolchain.

Lemma is_hex_plain (c : N) : is_hex c -> c <> 32 /\ c <> 10.
Proof. unfold is_hex. lia. Qed.

Lemma address_result_readable (f name : pystr) :
  address f = Some name -> readable [full_name_of name; py "basic"].
Proof.
  intros Ha. exists (full_name_of name), (py "basic").
  split; [reflexivity|].
  assert (Hhex : Forall is_hex name).
  { unfold address in Ha. destruct (utf8_encode f) as [bytes|]; [|discriminate].
    injection Ha as <-. apply Forall_take. unfold SHA1.hexdigest.
    destruct (SHA1.digest bytes) as [[[[h0 h1] h2] h3] h4].
    repeat (apply Forall_app; split); apply hex_word_is_hex. }
  rewrite List.Forall_forall in Hhex.
  assert (Hname : forall c, In c (full_name_of name) -> c <> 32 /\ c <> 10).
  { intros c Hc. unfold full_name_of in Hc. apply in_app_or in Hc as [Hc|Hc].
    - apply is_hex_plain, Hhex, Hc.
    - vm_compute in Hc.
      repeat (destruct Hc as [<-|Hc]; [split; discriminate|]). destruct Hc. }
  split; [intros H; apply Hname in H; tauto|].
  split; [intros H; apply Hname in H; tauto|].
  vm_compute. intuition discriminate.
Qed.

Lemma render_all_readable (formulas : list pystr) (w w' : World)
    (names : list (option render_result)) :
  render_all tc formulas w = (Return names, w') ->
  Forall (fun result => forall r, result = Some r ->
                                  r <> [] /\ Forall readable r) names.
Proof.
  revert w names. induction formulas as [|f rest IH]; intros w names; simpl.
  - intros [= <- <-]. constructor.
  - unfold bind at 1.
    destruct (formula_to_image tc f w) as [[result|e] w1] eqn:Hf; [|discriminate].
    unfold bind at 1.
    destruct (render_all tc rest w1) as [[names'|e] w2] eqn:Hr; [|discriminate].
    intros [= <- <-]. constructor; [|eapply IH; exact Hr].
    intros r ->. apply formula_to_image_result in Hf as (name & Ha & ->).
    split; [discriminate|]. constructor; [|constructor].
    eapply address_result_readable. exact Ha.
Qed.

(** X23: the validator accepts the artifacts of every run that returns:
    on the index and the formula list [main] writes, [check_validity]
    raises no exception and reports no length mismatch, whatever the
    formulas, the external programs and the shuffle were. *)
Theorem run_output_validates
    (shuffle : list pystr -> list pystr) (content : pystr) (w w' : World)
    (formula_text index_text : pystr) (listing : list pystr) :
  (forall l, Permutation (shuffle l) l) ->
  main tc shuffle content w = (Return (formula_text, index_text), w') ->
  exists missing,
    check_validity index_text formula_text listing
    = Return (mkReport None missing).
Proof.
  intros Hshuffle Hmain. unfold main in Hmain. unfold bind at 1 in Hmain.
  destruct (render_all tc _ w) as [[names|e] w1] eqn:Hrun; [|discriminate].
  cbv [bind rm_rf_suffix ret] in Hmain. injection Hmain as <- <- _.
  eexists. apply built_index_validates_aux.
  intros f r Hin. split.
  - apply in_combine_l in Hin.
    assert (Hf : In f (split_on 10 content)).
    { eapply Permutation_in; [apply Hshuffle|].
      rewrite <- (firstn_skipn MAX_IMAGES (shuffle (split_on 10 content))).
      apply in_or_app. left. exact Hin. }
    pose proof (split_on_fields 10 content) as Hclean.
    rewrite List.Forall_forall in Hclean. apply Hclean. exact Hf.
  - apply in_combine_r in Hin. apply render_all_readable in Hrun.
    rewrite List.Forall_forall in Hrun. apply (Hrun _ Hin). reflexivity.
Qed.

End RunAndValidate.

Section RunAndValidateScenarios.
Import Formula2Image IndexFacts Scenarios.

Lemma run_output_validates_witness :
  exists missing,
    check_validity (py "0 11f6ad8ec52a2984abaa_basic basic") (py "x")
                   [py "11f6ad8ec52a2984abaa_basic.png"]
    = Return (mkReport None missing).
Proof.
  apply (run_output_validates one_page (fun l => l) (py "x") empty_world
           (mkWorld [(py "11f6ad8ec52a2984abaa_basic.png", [])]
                    [pdflatex_args (py "11f6ad8ec52a2984abaa");
                     pdftoppm_args (py "11f6ad8ec52a2984abaa")])).
  - intros l. reflexivity.
  - vm_compute. reflexivity.
Defined.

End RunAndValidateScenarios.

(** ** The extraction of latex2formulas.py *)

Section Extraction.
Import Latex2Formulas ExtractionFacts.

Lemma retained_kept (p : pattern) (latex : pystr) :
  retained p latex = kept (findall p latex).
Proof. reflexivity. Qed.

Lemma kept_app (a b : list pystr) : kept (a ++ b) = kept a ++ kept b.
Proof. unfold kept. rewrite List.filter_app, List.map_app. reflexivity. Qed.

Lemma kept_one (x : pystr) :
  kept [x] = if in_window x then [clean x] else [].
Proof. unfold kept. simpl. destruct (in_window x); reflexivity. Qed.

Lemma in_window_bounds (x : pystr) :
  in_window x = true
  <-> (MIN_LENGTH < List.length (strip x) < MAX_LENGTH)%nat.
Proof.
  unfold in_window. rewrite andb_true_iff, !Nat.ltb_lt. tauto.
Qed.

(** With enough fuel the search does not depend on the fuel. *)
Lemma lazy_until_shorter (close s group rest : pystr) :
  lazy_until close s = Some (group, rest) ->
  (List.length rest <= List.length s)%nat.
Proof.
  revert group rest. induction s as [|c s IH]; intros group rest; simpl.
  - destruct (startswith close []); [|discriminate].
    intros [= <- <-]. rewrite skipn_nil. simpl. lia.
  - destruct (startswith close (c :: s)).
    + intros [= <- <-]. rewrite length_skipn. simpl List.length. lia.
    + destruct (lazy_until close s) as [[g r]|]; [|discriminate].
      intros [= <- <-]. specialize (IH g r eq_refl). lia.
Qed.

Lemma match_here_shorter (p : pattern) (s group rest : pystr) :
  opening p <> [] ->
  match_here p s = Some (group, rest) ->
  (List.length rest < List.length s)%nat.
Proof.
  intros Hopen. unfold match_here.
  destruct (startswith (opening p) s) eqn:Hs; [|discriminate].
  intros Hl. apply lazy_until_shorter in Hl.
  rewrite length_skipn in Hl.
  destruct (opening p) as [|a o]; [congruence|].
  destruct s as [|b s]; [discriminate|]. simpl in *. lia.
Qed.

Lemma findall_fuel_enough (p : pattern) (n m : nat) (s : pystr) :
  opening p <> [] ->
  (List.length s < n)%nat -> (List.length s < m)%nat ->
  findall_fuel n p s = findall_fuel m p s.
Proof.
  intros Hopen. revert m s. induction n as [|n IH]; intros m s Hn Hm; [lia|].
  destruct m as [|m]; [lia|]. simpl.
  destruct (match_here p s) as [[group rest]|] eqn:Hmatch.
  - apply match_here_shorter in Hmatch; [|exact Hopen].
    f_equal. apply IH; lia.
  - destruct s as [|c s]; [reflexivity|]. simpl in *. apply IH; lia.
Qed.

(** The comprehension of lines 48 and 49, before [re.sub] is reached: a
    span whose stripped length is MIN_LENGTH, or MAX_LENGTH or more, adds
    nothing to the list [result]; a span of stripped length MIN_LENGTH+1 is
    kept, in its place. *)
Theorem size_window_exclusive
    (p : pattern) (latex : pystr) (before : list pystr) (x : pystr)
    (after : list pystr) :
  In p PATTERNS ->
  findall p latex = before ++ x :: after ->
  (List.length (strip x) = MIN_LENGTH
   \/ (MAX_LENGTH <= List.length (strip x))%nat ->
   retained p latex = kept before ++ kept after)
  /\ (List.length (strip x) = S MIN_LENGTH ->
      retained p latex = kept before ++ clean x :: kept after).
Proof.
  intros _ Hspans. rewrite retained_kept, Hspans, kept_app.
  change (x :: after) with ([x] ++ after). rewrite kept_app, kept_one.
  split; intros Hlen.
  - assert (Hout : in_window x = false).
    { apply not_true_is_false. rewrite in_window_bounds.
      unfold MIN_LENGTH, MAX_LENGTH in *. lia. }
    rewrite Hout. reflexivity.
  - assert (Hin : in_window x = true).
    { apply in_window_bounds. unfold MIN_LENGTH, MAX_LENGTH in *. lia. }
    rewrite Hin. reflexivity.
Qed.

Lemma size_window_exclusive_witness :
  retained (mkPattern (py "$") (py "$")) (in_dollars forty) = []
  /\ retained (mkPattern (py "$") (py "$")) (in_dollars (forty ++ py "u"))
     = [forty ++ py "u"].
Proof.
  split.
  - apply (size_window_exclusive (mkPattern (py "$") (py "$"))
             (in_dollars forty) [] forty []).
    + right. right. left. reflexivity.
    + vm_compute. reflexivity.
    + left. vm_compute. reflexivity.
  - apply (size_window_exclusive (mkPattern (py "$") (py "$"))
             (in_dollars (forty ++ py "u")) [] (forty ++ py "u") []).
    + right. right. left. reflexivity.
    + vm_compute. reflexivity.
    + vm_compute. reflexivity.
Defined.

Lemma sub_label_fuel_enough (n m : nat) (s : pystr) :
  (List.length s < n)%nat -> (List.length s < m)%nat ->
  sub_label_fuel n s = sub_label_fuel m s.
Proof.
  revert m s. induction n as [|n IH]; intros m s Hn Hm; [lia|].
  destruct m as [|m]; [lia|].
  destruct s as [|c s]; [reflexivity|].
  cbn [sub_label_fuel]. simpl List.length in Hn, Hm.
  destruct (startswith (py "label{") (c :: s)).
  - destruct (greedy_close (skipn 6 (c :: s))) as [k|].
    + apply IH; rewrite length_skipn; simpl List.length; lia.
    + f_equal. apply IH; lia.
  - f_equal. apply IH; lia.
Qed.

(** The input of the specification for label stripping is too short to be
    retained: its span has 16 characters. *)
Example short_label_not_retained (v : re_version) :
  get_formulas v (py "\begin{equation} x=y \label{eq:1} \end{equation}")
  = Return ([], []).
Proof. destruct v; vm_compute; reflexivity. Qed.

(** The 41 characters between dollar signs are returned, the 40 are not
    (where [re.sub] does not raise). *)
Example boundary_in_dollars :
  get_formulas BadEscapeIsLetter (in_dollars forty) = Return ([], [])
  /\ get_formulas BadEscapeIsLetter (in_dollars (forty ++ py "u"))
     = Return ([forty ++ py "u"], [forty ++ py "u"]).
Proof. split; vm_compute; reflexivity. Qed.

(** C8 at an equation with a label that is long enough to be retained.
    Where the interpreter refuses the escape, [get_formulas] raises; where
    it reads the escape as the letter l, the backslash of the label stays
    in the normalized match. Neither is the raw match without the label. *)
Theorem label_not_stripped :
  get_formulas BadEscapeIsError labelled = Raise ReError
  /\ get_formulas BadEscapeIsLetter labelled
     = Return ([labelled_raw], [labelled_as_computed])
  /\ labelled_as_computed <> labelled_without_label.
Proof.
  split; [vm_compute; reflexivity|]. split; [vm_compute; reflexivity|].
  intros H. vm_compute in H. discriminate H.
Qed.

(** *** Deduplication *)

Lemma fold_outcome_raises {A St} (step : St -> A -> outcome St)
    (l : list A) (st : St) (e : exn) :
  (forall st x e, step st x = Raise e -> e = ReError) ->
  fold_outcome step l st = Raise e -> e = ReError.
Proof.
  intros Hstep. revert st. induction l as [|x l IH]; intros st; simpl.
  - discriminate.
  - destruct (step st x) as [st'|e'] eqn:Hx; simpl.
    + apply IH.
    + intros [= <-]. eapply Hstep. exact Hx.
Qed.

Lemma map_outcome_raises (v : re_version) (l : list pystr) (e : exn) :
  map_outcome (re_sub_label v) l = Raise e -> e = ReError.
Proof.
  induction l as [|x l IH]; simpl; [discriminate|].
  destruct v; simpl.
  - intros [= <-]. reflexivity.
  - destruct (map_outcome (re_sub_label BadEscapeIsLetter) l); simpl;
      [discriminate|exact IH].
Qed.

Lemma get_formulas_raises (v : re_version) (latex : pystr) (e : exn) :
  get_formulas v latex = Raise e -> e = ReError.
Proof.
  apply fold_outcome_raises. intros st p e'. unfold pattern_step.
  destruct (map_outcome (re_sub_label v) (retained p latex)) eqn:Hm; simpl.
  - discriminate.
  - intros [= <-]. eapply map_outcome_raises. exact Hm.
Qed.

Lemma gather_raises (v : re_version) (docs : list pystr) (e : exn) :
  gather v docs = Raise e -> e = ReError.
Proof.
  induction docs as [|d docs IH]; simpl; [discriminate|].
  destruct (get_formulas v d) as [r|e'] eqn:Hd; simpl.
  - destruct (gather v docs) as [rs|e'']; simpl; [discriminate|].
    intros [= <-]. apply IH. reflexivity.
  - intros [= <-]. eapply get_formulas_raises. exact Hd.
Qed.

Lemma gather_app (v : re_version) (a b : list pystr) :
  gather v (a ++ b)
  = obind (gather v a)
      (fun ra => obind (gather v b)
                   (fun rb => Return (fst ra ++ fst rb, snd ra ++ snd rb))).
Proof.
  induction a as [|d a IH]; simpl.
  - destruct (gather v b) as [[x y]|]; reflexivity.
  - destruct (get_formulas v d) as [r|]; simpl; [|reflexivity].
    rewrite IH. destruct (gather v a) as [ra|]; simpl; [|reflexivity].
    destruct (gather v b) as [rb|]; simpl; [|reflexivity].
    rewrite !app_assoc. reflexivity.
Qed.

Lemma documents_app (a b : archive) :
  documents (a ++ b) = documents a ++ documents b.
Proof.
  induction a as [|[name text] a IH]; simpl; [reflexivity|].
  destruct (existsb (N.eqb 47) name); simpl; rewrite IH; reflexivity.
Qed.

Lemma fold_members (v : re_version) (members : archive)
    (acc : list pystr * list pystr) :
  fold_outcome (member_step v) members acc
  = obind (gather v (documents members))
      (fun r => Return (fst acc ++ fst r, snd acc ++ snd r)).
Proof.
  revert acc. induction members as [|[name text] rest IH]; intros acc; simpl.
  - rewrite !app_nil_r. destruct acc; reflexivity.
  - unfold member_step at 1. simpl.
    destruct (existsb (N.eqb 47) name); simpl; [|apply IH].
    destruct (get_formulas v text) as [[x y]|]; simpl; [|reflexivity].
    rewrite IH. simpl.
    destruct (gather v (documents rest)) as [rs|]; simpl; [|reflexivity].
    rewrite !app_assoc. reflexivity.
Qed.

Lemma fold_archives (v : re_version) (tars : list archive)
    (acc : list pystr * list pystr) :
  fold_outcome (archive_step v) tars acc
  = obind (gather v (documents (concat tars)))
      (fun r => Return (fst acc ++ fst r, snd acc ++ snd r)).
Proof.
  revert acc. induction tars as [|tar tars IH]; intros acc; simpl.
  - rewrite !app_nil_r. destruct acc; reflexivity.
  - unfold archive_step at 1. rewrite fold_members, documents_app, gather_app.
    destruct (gather v (documents tar)) as [ra|]; simpl; [|reflexivity].
    rewrite IH. simpl.
    destruct (gather v (documents (concat tars))) as [rb|]; simpl;
      [|reflexivity].
    rewrite !app_assoc. reflexivity.
Qed.

Lemma main_gather (v : re_version) (tars : list archive) :
  main v tars
  = obind (gather v (documents (concat tars)))
      (fun r => Return (elements (to_set (fst r)), snd r)).
Proof.
  unfold main. rewrite fold_archives.
  destruct (gather v (documents (concat tars))) as [[x y]|]; reflexivity.
Qed.

Lemma to_set_elements (formulas : list pystr) :
  to_set (elements (to_set formulas)) = to_set formulas.
Proof. unfold to_set. apply list_to_set_elements_L. Qed.

(** The set of formulas of a list of documents. *)
Lemma unique_formulas_gather (v : re_version) (tars : list archive) :
  unique_formulas v tars
  = obind (gather v (documents (concat tars)))
      (fun r => Return (to_set (fst r))).
Proof.
  unfold unique_formulas. rewrite main_gather.
  destruct (gather v (documents (concat tars))) as [[x y]|]; simpl;
    [|reflexivity].
  rewrite to_set_elements. reflexivity.
Qed.

Lemma gathered_set_perm (v : re_version) (docs docs' : list pystr) :
  Permutation docs docs' ->
  obind (gather v docs) (fun r => Return (to_set (fst r)))
  = obind (gather v docs') (fun r => Return (to_set (fst r))).
Proof.
  induction 1 as [|d l l' Hperm IH|d d' l|l l' l'' _ IH1 _ IH2].
  - reflexivity.
  - simpl. destruct (get_formulas v d) as [r|]; simpl; [|reflexivity].
    destruct (gather v l) as [rs|e] eqn:Hl;
      destruct (gather v l') as [rs'|e'] eqn:Hl'; simpl in *;
      try discriminate.
    + injection IH as IH. unfold to_set in *. simpl.
      rewrite !list_to_set_app_L, IH. reflexivity.
    + injection IH as <-. reflexivity.
  - simpl.
    destruct (get_formulas v d) as [r|e] eqn:Hd;
      destruct (get_formulas v d') as [r'|e'] eqn:Hd'; simpl;
      try reflexivity.
    + destruct (gather v l) as [rs|]; simpl; [|reflexivity].
      unfold to_set. rewrite !list_to_set_app_L. f_equal.
      rewrite !(assoc_L union). f_equal. apply (comm_L union).
    + apply get_formulas_raises in Hd, Hd'. congruence.
  - congruence.
Qed.

Lemma documents_perm (a b : archive) :
  Permutation a b -> Permutation (documents a) (documents b).
Proof.
  induction 1 as [|[name text] l l' _ IH|[n1 t1] [n2 t2] l|l l' l'' _ IH1 _ IH2];
    simpl.
  - constructor.
  - destruct (existsb (N.eqb 47) name); [constructor|]; exact IH.
  - destruct (existsb (N.eqb 47) n1), (existsb (N.eqb 47) n2);
      try reflexivity. constructor.
  - etransitivity; eassumption.
Qed.

(** C9: the set of unique formulas does not depend on the order of the
    documents, and deduplicating the deduplicated list again gives the
    same formulas. *)
Theorem dedup_order_independent_idempotent
    (v : re_version) (tars tars' : list archive) :
  Permutation (concat tars) (concat tars') ->
  unique_formulas v tars = unique_formulas v tars'
  /\ (forall formulas formulas_mod,
        main v tars = Return (formulas, formulas_mod) ->
        NoDup formulas
        /\ elements (to_set formulas) = formulas
        /\ unique_formulas v tars = Return (to_set formulas)).
Proof.
  intros Hperm. split.
  - rewrite !unique_formulas_gather.
    apply gathered_set_perm, documents_perm, Hperm.
  - intros formulas formulas_mod Hmain.
    unfold unique_formulas. rewrite Hmain. simpl.
    rewrite main_gather in Hmain.
    destruct (gather v (documents (concat tars))) as [[x y]|]; simpl in Hmain;
      [|discriminate].
    injection Hmain as <- <-. rewrite to_set_elements.
    split; [apply NoDup_elements|]. split; reflexivity.
Qed.

Lemma dedup_order_independent_idempotent_witness :
  unique_formulas BadEscapeIsLetter
    [[(py "a/1.tex", in_dollars (forty ++ py "u"))]; [(py "b/2.tex", labelled)]]
  = unique_formulas BadEscapeIsLetter
      [[(py "b/2.tex", labelled)]; [(py "a/1.tex", in_dollars (forty ++ py "u"))]].
Proof.
  apply (dedup_order_independent_idempotent BadEscapeIsLetter
           [[(py "a/1.tex", in_dollars (forty ++ py "u"))]; [(py "b/2.tex", labelled)]]
           [[(py "b/2.tex", labelled)]; [(py "a/1.tex", in_dollars (forty ++ py "u"))]]).
  simpl. apply perm_swap.
Defined.

End Extraction.

(** ** More on the extraction *)

Section Findall.
Import Latex2Formulas ExtractionFacts.

Lemma startswith_prefix (p s : pystr) :
  startswith p s = true -> s = p ++ skipn (List.length p) s.
Proof.
  revert s. induction p as [|a p IH]; intros s; simpl; [reflexivity|].
  destruct s as [|b s]; [discriminate|].
  intros H. apply andb_true_iff in H as [Hab Hs].
  apply N.eqb_eq in Hab. subst b. f_equal. apply IH. exact Hs.
Qed.

Lemma lazy_until_sound (close s group rest : pystr) :
  lazy_until close s = Some (group, rest) ->
  s = group ++ close ++ rest
  /\ forall a b, group = a ++ b -> b <> [] ->
                 startswith close (b ++ close ++ rest) = false.
Proof.
  revert group rest. induction s as [|c s IH]; intros group rest.
  - simpl. destruct (startswith close []) eqn:Hs; [|discriminate].
    intros [= <- <-]. split.
    + simpl. apply (startswith_prefix close [] Hs).
    + intros a b Hab Hb. destruct a, b; try discriminate. congruence.
  - cbn [lazy_until]. destruct (startswith close (c :: s)) eqn:Hs.
    + intros [= <- <-]. split.
      * simpl. apply (startswith_prefix close (c :: s) Hs).
      * intros a b Hab Hb. destruct a, b; try discriminate. congruence.
    + destruct (lazy_until close s) as [[g r]|] eqn:Hl; [|discriminate].
      intros [= <- <-]. destruct (IH g r eq_refl) as [Heq Hmin]. split.
      * simpl. f_equal. exact Heq.
      * intros a b Hab Hb. destruct a as [|x a]; simpl in Hab.
        -- subst b. simpl. rewrite <- Heq. exact Hs.
        -- injection Hab as _ Hab. apply (Hmin a b Hab Hb).
Qed.

Lemma match_here_sound (p : pattern) (s group rest : pystr) :
  match_here p s = Some (group, rest) ->
  s = opening p ++ group ++ closing p ++ rest
  /\ forall a b, group = a ++ b -> b <> [] ->
                 startswith (closing p) (b ++ closing p ++ rest) = false.
Proof.
  unfold match_here. destruct (startswith (opening p) s) eqn:Hs; [|discriminate].
  intros Hl. apply lazy_until_sound in Hl as [Heq Hmin].
  split; [|exact Hmin].
  rewrite (startswith_prefix _ _ Hs) at 1. rewrite Heq. reflexivity.
Qed.

Lemma findall_fuel_sound (n : nat) (p : pattern) (s group : pystr) :
  In group (findall_fuel n p s) ->
  exists before after,
    s = before ++ opening p ++ group ++ closing p ++ after
    /\ forall a b, group = a ++ b -> b <> [] ->
                   startswith (closing p) (b ++ closing p ++ after) = false.
Proof.
  revert s. induction n as [|n IH]; intros s; simpl; [tauto|].
  destruct (match_here p s) as [[g rest]|] eqn:Hm.
  - apply match_here_sound in Hm as [Heq Hmin]. intros [<-|Hin].
    + exists [], rest. split; [exact Heq|exact Hmin].
    + destruct (IH rest Hin) as (before & after & Hrest & Hmin').
      exists (opening p ++ g ++ closing p ++ before), after.
      split; [|exact Hmin']. rewrite Heq, Hrest at 1.
      rewrite <- !app_assoc. reflexivity.
  - destruct s as [|c s]; [intros []|]. intros Hin.
    destruct (IH s Hin) as (before & after & Hs & Hmin).
    exists (c :: before), after. split; [|exact Hmin].
    simpl. f_equal. exact Hs.
Qed.

(** X14: every group [re.findall] returns stands in the document between
    the two delimiters of the pattern, and it is the shortest one there: the
    closing delimiter does not start anywhere inside the group. *)
Theorem findall_groups_are_delimited (p : pattern) (latex group : pystr) :
  In group (findall p latex) ->
  exists before after,
    latex = before ++ opening p ++ group ++ closing p ++ after
    /\ forall a b, group = a ++ b -> b <> [] ->
                   startswith (closing p) (b ++ closing p ++ after) = false.
Proof. apply findall_fuel_sound. Qed.

Lemma findall_groups_are_delimited_witness :
  exists before after,
    py "see $a$ and $b$" = before ++ py "$" ++ py "b" ++ py "$" ++ after
    /\ forall a b, py "b" = a ++ b -> b <> [] ->
                   startswith (py "$") (b ++ py "$" ++ after) = false.
Proof.
  apply (findall_groups_are_delimited (mkPattern (py "$") (py "$"))
           (py "see $a$ and $b$") (py "b")).
  vm_compute. right. left. reflexivity.
Defined.

Lemma lstrip_by_length (P : N -> bool) (s : pystr) :
  (List.length (lstrip_by P s) <= List.length s)%nat.
Proof.
  induction s as [|c s IH]; simpl; [lia|]. destruct (P c); simpl; lia.
Qed.

Lemma strip_by_length (P : N -> bool) (s : pystr) :
  (List.length (strip_by P s) <= List.length s)%nat.
Proof.
  unfold strip_by, rstrip_by. rewrite length_rev.
  etransitivity; [apply lstrip_by_length|]. rewrite length_rev.
  apply lstrip_by_length.
Qed.

Lemma remove_char_spec (c : N) (s : pystr) :
  ~ In c (remove_char c s)
  /\ (List.length (remove_char c s) <= List.length s)%nat
  /\ forall x, In x (remove_char c s) -> In x s.
Proof.
  unfold remove_char. split; [|split].
  - intros Hin. apply List.filter_In in Hin as [_ Hc].
    rewrite N.eqb_refl in Hc. discriminate.
  - apply List.filter_length_le.
  - intros x Hx. apply List.filter_In in Hx. tauto.
Qed.

(** X15: a retained formula holds no newline and no carriage return and
    has fewer than MAX_LENGTH characters. *)
Theorem retained_formulas_are_clean (p : pattern) (latex x : pystr) :
  In x (retained p latex) ->
  ~ In 10 x /\ ~ In 13 x /\ (List.length x < MAX_LENGTH)%nat.
Proof.
  unfold retained. intros Hin.
  apply in_map_iff in Hin as (y & <- & Hy).
  apply List.filter_In in Hy as [_ Hw].
  apply in_window_bounds in Hw. unfold clean.
  destruct (remove_char_spec 13 (remove_char 10 (strip y))) as (H13 & Hl13 & Hsub).
  destruct (remove_char_spec 10 (strip y)) as (H10 & Hl10 & _).
  split; [|split].
  - intros H. apply H10, Hsub, H.
  - exact H13.
  - lia.
Qed.

Lemma retained_formulas_are_clean_witness :
  ~ In 10 (forty ++ py "u") /\ ~ In 13 (forty ++ py "u")
  /\ (List.length (forty ++ py "u") < MAX_LENGTH)%nat.
Proof.
  apply (retained_formulas_are_clean (mkPattern (py "$") (py "$"))
           (in_dollars (forty ++ py "u"))).
  vm_compute. left. reflexivity.
Defined.

End Findall.

Section GetFormulas.
Import Latex2Formulas ExtractionFacts.

Lemma map_outcome_letter (l : list pystr) :
  map_outcome (re_sub_label BadEscapeIsLetter) l = Return (List.map sub_label l).
Proof.
  induction l as [|x l IH]; simpl; [reflexivity|]. rewrite IH. reflexivity.
Qed.

Lemma map_outcome_error (l : list pystr) :
  map_outcome (re_sub_label BadEscapeIsError) l
  = match l with [] => Return [] | _ => Raise ReError end.
Proof. destruct l; reflexivity. Qed.

Lemma fold_patterns_letter (latex : pystr) (ps : list pattern)
    (acc : list pystr * list pystr) :
  fold_outcome (pattern_step BadEscapeIsLetter latex) ps acc
  = Return (fst acc ++ flat_map (fun p => retained p latex) ps,
            snd acc ++ List.map sub_label
                         (flat_map (fun p => retained p latex) ps)).
Proof.
  revert acc. induction ps as [|p ps IH]; intros acc; simpl.
  - rewrite !app_nil_r. destruct acc; reflexivity.
  - unfold pattern_step at 1. rewrite map_outcome_letter. simpl.
    rewrite IH. simpl. rewrite List.map_app, !app_assoc. reflexivity.
Qed.

Lemma fold_patterns_error (latex : pystr) (ps : list pattern)
    (acc : list pystr * list pystr) :
  fold_outcome (pattern_step BadEscapeIsError latex) ps acc
  = match flat_map (fun p => retained p latex) ps with
    | [] => Return acc
    | _ => Raise ReError
    end.
Proof.
  revert acc. induction ps as [|p ps IH]; intros acc; simpl; [reflexivity|].
  unfold pattern_step at 1. rewrite map_outcome_error.
  destruct (retained p latex) as [|x l]; simpl; [|reflexivity].
  rewrite IH, !app_nil_r. destruct acc; reflexivity.
Qed.

Lemma strict_version_nothing_aux (latex : pystr) :
  get_formulas BadEscapeIsError latex
  = match all_retained latex with
    | [] => Return ([], [])
    | _ => Raise ReError
    end.
Proof. unfold get_formulas, all_retained. apply fold_patterns_error. Qed.

(** The first list [get_formulas] returns, when it returns, is made of the
    spans inside the size window, pattern after pattern. *)
Lemma get_formulas_first_list (v : re_version) (latex : pystr)
    (raw mods : list pystr) :
  get_formulas v latex = Return (raw, mods) ->
  raw = flat_map (fun p => kept (findall p latex)) PATTERNS.
Proof.
  destruct v.
  - rewrite strict_version_nothing_aux. unfold all_retained, retained, kept.
    destruct (flat_map _ PATTERNS); [|discriminate].
    intros [= <- <-]. reflexivity.
  - unfold get_formulas. rewrite fold_patterns_letter.
    intros [= <- <-]. reflexivity.
Qed.

(** C7 at the boundaries of the size window. A formula of MIN_LENGTH or of
    MAX_LENGTH characters between dollar signs is dropped by [get_formulas]
    on every interpreter. The formula of MIN_LENGTH+1 characters is returned
    where the escape of the label pattern is read as a letter; where the
    interpreter refuses that escape, [get_formulas] raises for it, and
    nothing is retained. *)
Theorem window_boundaries_of_get_formulas :
  (forall v, get_formulas v (in_dollars forty) = Return ([], []))
  /\ (forall v, get_formulas v (in_dollars long_formula) = Return ([], []))
  /\ get_formulas BadEscapeIsLetter (in_dollars (forty ++ py "u"))
     = Return ([forty ++ py "u"], [forty ++ py "u"])
  /\ get_formulas BadEscapeIsError (in_dollars (forty ++ py "u"))
     = Raise ReError.
Proof.
  split; [intros v; destruct v; vm_compute; reflexivity|].
  split; [intros v; destruct v; vm_compute; reflexivity|].
  split; vm_compute; reflexivity.
Qed.

(** X16: where the interpreter refuses the escape of the label pattern,
    [get_formulas] returns only for a document without any retained span,
    and then two empty lists; in every other case it raises [re.error]. *)
Theorem strict_version_returns_nothing (latex : pystr) :
  get_formulas BadEscapeIsError latex
  = match all_retained latex with
    | [] => Return ([], [])
    | _ => Raise ReError
    end.
Proof. apply strict_version_nothing_aux. Qed.

(** X17: where the escape is read as a letter, [get_formulas] always
    returns; the first list holds the retained spans, pattern after pattern,
    and the second list has the same length and holds, at each position, the
    result of the substitution on the span at that position. *)
Theorem letter_version_is_parallel (latex : pystr) :
  exists mods,
    get_formulas BadEscapeIsLetter latex = Return (all_retained latex, mods)
    /\ List.length mods = List.length (all_retained latex)
    /\ forall i x,
         nth_error (all_retained latex) i = Some x ->
         nth_error mods i = Some (sub_label x)
         /\ re_sub_label BadEscapeIsLetter x = Return (sub_label x).
Proof.
  exists (List.map sub_label (all_retained latex)). split; [|split].
  - unfold get_formulas, all_retained. rewrite fold_patterns_letter. reflexivity.
  - apply length_map.
  - intros i x Hx. split; [|reflexivity].
    rewrite nth_error_map, Hx. reflexivity.
Qed.

Lemma letter_version_is_parallel_witness :
  exists mods,
    get_formulas BadEscapeIsLetter labelled = Return (all_retained labelled, mods)
    /\ nth_error mods 0 = Some labelled_as_computed.
Proof.
  destruct (letter_version_is_parallel labelled) as (mods & Hrun & _ & Hpos).
  exists mods. split; [exact Hrun|].
  destruct (Hpos 0%nat labelled_raw) as [Hmod _].
  - vm_compute. reflexivity.
  - rewrite Hmod. vm_compute. reflexivity.
Defined.

Lemma patterns_delimiters (p : pattern) :
  In p PATTERNS -> opening p <> [] /\ closing p <> [].
Proof.
  intros Hp. repeat (destruct Hp as [<-|Hp]; [split; discriminate|]).
  destruct Hp.
Qed.

(** X18: a document of at most MIN_LENGTH + 2 characters yields nothing,
    and no exception, on every version of the interpreter: no span between
    two delimiters is long enough. *)
Theorem short_document_yields_nothing (v : re_version) (latex : pystr) :
  (List.length latex <= MIN_LENGTH + 2)%nat ->
  get_formulas v latex = Return ([], []).
Proof.
  intros Hlen.
  assert (Hnone : all_retained latex = []).
  { unfold all_retained.
    assert (Hp : forall p, In p PATTERNS -> retained p latex = []).
    { intros p Hp. unfold retained.
      destruct (List.filter in_window (findall p latex)) as [|x l] eqn:Hf;
        [reflexivity|].
      assert (Hx : In x (List.filter in_window (findall p latex)))
        by (rewrite Hf; left; reflexivity).
      apply List.filter_In in Hx as [Hx Hw].
      apply in_window_bounds in Hw.
      apply findall_fuel_sound in Hx as (before & after & Heq & _).
      apply (f_equal (@List.length N)) in Heq. rewrite !length_app in Heq.
      destruct (patterns_delimiters p Hp) as [Ho Hc].
      pose proof (strip_by_length isspace x) as Hs. fold (strip x) in Hs.
      destruct (opening p); [congruence|]. destruct (closing p); [congruence|].
      simpl in Heq. lia. }
    induction PATTERNS as [|p ps IH]; [reflexivity|]. simpl.
    rewrite (Hp p) by (left; reflexivity). simpl.
    apply IH. intros q Hq. apply Hp. right. exact Hq. }
  destruct v.
  - rewrite strict_version_nothing_aux, Hnone. reflexivity.
  - unfold get_formulas. rewrite fold_patterns_letter.
    fold (all_retained latex). rewrite Hnone. reflexivity.
Qed.

Lemma short_document_yields_nothing_witness :
  get_formulas BadEscapeIsError (in_dollars forty) = Return ([], []).
Proof.
  apply (short_document_yields_nothing BadEscapeIsError (in_dollars forty)).
  vm_compute. lia.
Defined.

Lemma greedy_close_none (s : pystr) : ~ In 125 s -> greedy_close s = None.
Proof.
  induction s as [|c s IH]; intros Hno; simpl; [reflexivity|].
  destruct (c =? 10); [reflexivity|].
  rewrite IH by (intros H; apply Hno; right; exact H).
  destruct (N.eqb_spec c 125) as [->|_]; [|reflexivity].
  exfalso. apply Hno. left. reflexivity.
Qed.

Lemma in_skipn {A} (n : nat) (l : list A) (x : A) : In x (skipn n l) -> In x l.
Proof.
  intros Hx. rewrite <- (firstn_skipn n l). apply in_or_app. right. exact Hx.
Qed.

Lemma sub_label_fuel_shorter (n : nat) (s : pystr) :
  (List.length (sub_label_fuel n s) <= List.length s)%nat.
Proof.
  revert s. induction n as [|n IH]; intros s; [simpl; lia|].
  destruct s as [|c s]; [simpl; lia|]. cbn [sub_label_fuel].
  assert (Hc : (List.length (c :: sub_label_fuel n s)
                <= List.length (c :: s))%nat)
    by (simpl; specialize (IH s); lia).
  destruct (startswith (py "label{") (c :: s)); [|exact Hc].
  destruct (greedy_close (skipn 6 (c :: s))) as [k|]; [|exact Hc].
  etransitivity; [apply IH|]. rewrite length_skipn. lia.
Qed.

Lemma sub_label_fuel_no_brace (n : nat) (s : pystr) :
  ~ In 125 s -> sub_label_fuel n s = s.
Proof.
  revert s. induction n as [|n IH]; intros s Hno; [reflexivity|].
  destruct s as [|c s]; [reflexivity|]. cbn [sub_label_fuel].
  assert (Hs : sub_label_fuel n s = s)
    by (apply IH; intros H; apply Hno; right; exact H).
  rewrite (greedy_close_none (skipn 6 (c :: s)))
    by (intros H; apply Hno; eapply in_skipn; exact H).
  rewrite Hs. destruct (startswith (py "label{") (c :: s)); reflexivity.
Qed.

(** X19: where the escape is read as a letter, the substitution only
    deletes: the result is never longer than the span, and a span without
    a closing brace is returned as it is. *)
Theorem label_substitution_only_deletes (x : pystr) :
  exists y,
    re_sub_label BadEscapeIsLetter x = Return y
    /\ (List.length y <= List.length x)%nat
    /\ (~ In 125 x -> y = x).
Proof.
  exists (sub_label x). split; [reflexivity|]. split.
  - apply sub_label_fuel_shorter.
  - apply sub_label_fuel_no_brace.
Qed.

Lemma label_substitution_only_deletes_witness :
  re_sub_label BadEscapeIsLetter (py "x^2 \label") = Return (py "x^2 \label").
Proof.
  destruct (label_substitution_only_deletes (py "x^2 \label"))
    as (y & Hy & _ & Hsame).
  rewrite Hy. f_equal. apply Hsame. vm_compute. intuition discriminate.
Defined.

End GetFormulas.

(** ** The whole run of latex2formulas.py *)

Section Corpus.
Import Latex2Formulas ExtractionFacts.

Lemma gather_letter (docs : list pystr) :
  gather BadEscapeIsLetter docs
  = Return (all_spans docs, List.map sub_label (all_spans docs)).
Proof.
  unfold all_spans. induction docs as [|d docs IH]; simpl; [reflexivity|].
  unfold get_formulas. rewrite fold_patterns_letter. fold (all_retained d).
  simpl. rewrite IH. simpl. rewrite List.map_app. reflexivity.
Qed.

Lemma gather_error (docs : list pystr) :
  gather BadEscapeIsError docs
  = match all_spans docs with
    | [] => Return ([], [])
    | _ => Raise ReError
    end.
Proof.
  unfold all_spans. induction docs as [|d docs IH]; simpl; [reflexivity|].
  rewrite strict_version_nothing_aux.
  destruct (all_retained d) as [|x l]; simpl; [|reflexivity].
  rewrite IH. destruct (flat_map all_retained docs); reflexivity.
Qed.

Lemma in_elements_to_set (l : list pystr) (x : pystr) :
  In x (elements (to_set l)) <-> In x l.
Proof.
  unfold to_set.
  rewrite <- !list_elem_of_In, elem_of_elements, elem_of_list_to_set.
  reflexivity.
Qed.

(** X20: a member whose name holds no slash is not read: the run gives the
    same result without it. *)
Theorem member_without_slash_is_skipped
    (v : re_version) (tars tars' : list archive) (before after : archive)
    (name text : pystr) :
  existsb (N.eqb 47) name = false ->
  main v (tars ++ (before ++ (name, text) :: after) :: tars')
  = main v (tars ++ (before ++ after) :: tars').
Proof.
  intros Hname. rewrite !main_gather.
  rewrite !concat_app. cbn [concat]. rewrite !documents_app.
  cbn [documents]. rewrite Hname. reflexivity.
Qed.

(** X21: where the escape is read as a letter, whenever the run returns,
    the first list has no duplicates and holds exactly the retained spans of
    the documents read; the second list holds one entry for every retained
    span, duplicates included, so it is at least as long as the first. *)
Theorem run_deduplicates_first_list_only
    (tars : list archive) (formulas formulas_mod : list pystr) :
  main BadEscapeIsLetter tars = Return (formulas, formulas_mod) ->
  NoDup formulas
  /\ (forall x, In x formulas
                <-> exists d, In d (documents (concat tars))
                              /\ In x (all_retained d))
  /\ List.length formulas_mod
     = List.length (all_spans (documents (concat tars)))
  /\ (List.length formulas <= List.length formulas_mod)%nat.
Proof.
  rewrite main_gather, gather_letter. cbn [obind fst snd].
  intros [= <- <-].
  assert (Hnodup : List.NoDup
                     (elements (to_set (all_spans (documents (concat tars)))))).
  { apply NoDup_ListNoDup, NoDup_elements. }
  split; [apply NoDup_elements|]. split; [|split].
  - intros x. rewrite in_elements_to_set. unfold all_spans.
    rewrite in_flat_map. reflexivity.
  - apply length_map.
  - rewrite length_map. apply List.NoDup_incl_length; [exact Hnodup|].
    intros x Hx. apply in_elements_to_set. exact Hx.
Qed.

Lemma run_deduplicates_first_list_only_witness :
  NoDup [labelled_raw]
  /\ (List.length [labelled_raw]
      <= List.length [labelled_as_computed; labelled_as_computed])%nat.
Proof.
  destruct (run_deduplicates_first_list_only
              [[(py "a/1.tex", labelled)]; [(py "b/2.tex", labelled)]]
              [labelled_raw] [labelled_as_computed; labelled_as_computed])
    as (Hnodup & _ & _ & Hlen).
  - vm_compute. reflexivity.
  - split; assumption.
Defined.

(** X22: where the interpreter refuses the escape, the run returns only
    when no document holds a retained span, and then with two empty lists;
    one retained span anywhere makes the whole run raise [re.error]. *)
Theorem strict_run_returns_nothing (tars : list archive) :
  main BadEscapeIsError tars
  = match all_spans (documents (concat tars)) with
    | [] => Return ([], [])
    | _ => Raise ReError
    end.
Proof.
  rewrite main_gather, gather_error.
  destruct (all_spans (documents (concat tars))); [|reflexivity].
  simpl. unfold to_set. simpl. rewrite elements_empty. reflexivity.
Qed.

Lemma member_without_slash_is_skipped_witness :
  main BadEscapeIsLetter [[(py "paper", labelled); (py "paper/a.tex", labelled)]]
  = main BadEscapeIsLetter [[(py "paper/a.tex", labelled)]].
Proof.
  apply (member_without_slash_is_skipped BadEscapeIsLetter [] []
           [] [(py "paper/a.tex", labelled)] (py "paper") labelled).
  vm_compute. reflexivity.
Defined.

End Corpus.
